(** * Return eligibility rules of the e-commerce assistant

    A shallow embedding of [src/tools.py] (class [Tools]): the order table
    built by [__init__], and the three tool methods
    [evaluate_return_eligibility], [search_customer_orders] and
    [initiate_return_request].

    Modelling conventions.
    - A Python [str] is a [string] (its UTF-8 bytes).  The methods
      [upper], [lower] and [strip] are modelled on the ASCII range;
      bytes outside it are left untouched.
    - A [DataFrame] is the list of its rows, in storage order.  Numeric cells
      ([price], [quantity]) are integers.
    - A calendar date is its proleptic Gregorian ordinal
      ([datetime.date.toordinal]); a pandas [Timestamp] is a date together
      with a time of day.
    - What a method reads or changes outside its arguments (the table held by
      [self], the system clock, the SMTP server) lives in a [World] that is
      threaded through a small state-and-exception monad.
    - Each tool returns an f-string.  A returned message is modelled by a
      constructor holding the interpolated values; [render] functions give
      the text back as literal fragments and formatted fields. *)

From Stdlib Require Import String Ascii List ZArith NArith Lia Bool.
Import ListNotations.
Local Open Scope Z_scope.
Local Open Scope string_scope.

(** ** Python string methods, on the ASCII range *)

Module PyStr.

(** [str.isspace] for one character: TAB, LF, VT, FF, CR, the four
    separators FS, GS, RS, US and the space. *)
Definition isspace (c : ascii) : bool :=
  let n := N_of_ascii c in
  (((9 <=? n) && (n <=? 13)) || ((28 <=? n) && (n <=? 32)))%N.

Definition islower (c : ascii) : bool :=
  let n := N_of_ascii c in ((97 <=? n) && (n <=? 122))%N.

Definition isupper (c : ascii) : bool :=
  let n := N_of_ascii c in ((65 <=? n) && (n <=? 90))%N.

Definition upper_char (c : ascii) : ascii :=
  if islower c then ascii_of_N (N_of_ascii c - 32) else c.

Definition lower_char (c : ascii) : ascii :=
  if isupper c then ascii_of_N (N_of_ascii c + 32) else c.

(** [s.upper()] *)
Fixpoint upper (s : string) : string :=
  match s with
  | EmptyString => EmptyString
  | String c s' => String (upper_char c) (upper s')
  end.

(** [s.lower()] *)
Fixpoint lower (s : string) : string :=
  match s with
  | EmptyString => EmptyString
  | String c s' => String (lower_char c) (lower s')
  end.

(** [s.lstrip()] *)
Fixpoint lstrip (s : string) : string :=
  match s with
  | EmptyString => EmptyString
  | String c s' => if isspace c then lstrip s' else s
  end.

(** [s.rstrip()] *)
Fixpoint rstrip (s : string) : string :=
  match s with
  | EmptyString => EmptyString
  | String c s' =>
      match rstrip s' with
      | EmptyString => if isspace c then EmptyString else String c EmptyString
      | t => String c t
      end
  end.

(** [s.strip()] *)
Definition strip (s : string) : string := rstrip (lstrip s).

(** [x in xs] for a list of strings. *)
Definition contains (xs : list string) (x : string) : bool :=
  existsb (String.eqb x) xs.

End PyStr.

(** ** Dates *)

(** [datetime.date], as its ordinal. *)
Definition date := Z.

(** [pandas.Timestamp]: a calendar date and the nanoseconds elapsed since
    midnight of that date. *)
Record Timestamp := mkTimestamp {
  ts_date : date;
  ts_time : Z
}.

(** [ts.date()] *)
Definition Timestamp_date (ts : Timestamp) : date := ts_date ts.

(** [(a - b).days] for two dates. *)
Definition days_between (a b : date) : Z := a - b.

(** ** The order table *)

(** One row of the frame handed to [Tools.__init__]. *)
Record RawRow := mkRawRow {
  raw_order_id : string;
  raw_customer_id : string;
  raw_product : string;
  raw_category : string;
  raw_price : Z;
  raw_quantity : Z;
  raw_order_date : string;
  raw_payment_method : string;
  raw_estado : string
}.

(** One row of [self.df]; [Pedido.estado pedido] is [pedido["estado"]]. *)
Module Pedido.
Record row := mk {
  order_id : string;
  customer_id : string;
  product : string;
  category : string;
  price : Z;
  quantity : Z;
  order_date : Timestamp;
  payment_method : string;
  estado : string
}.
End Pedido.

Definition OrderRecord := Pedido.row.

Definition DataFrame := list OrderRecord.

(** [df[df[col] == value]]: the rows whose cell equals [value], in storage
    order. *)
Definition select (col : OrderRecord -> string) (value : string)
    (df : DataFrame) : DataFrame :=
  filter (fun row => String.eqb (col row) value) df.

Section Load.

(** [pd.to_datetime] on one cell; [None] when the cell does not parse. *)
Variable to_datetime : string -> option Timestamp.

Definition init_row (row : RawRow) : option OrderRecord :=
  match to_datetime (raw_order_date row) with
  | None => None
  | Some ts =>
      Some {| Pedido.order_id := raw_order_id row;
              Pedido.customer_id := raw_customer_id row;
              Pedido.product := PyStr.strip (PyStr.lower (raw_product row));
              Pedido.category := PyStr.strip (PyStr.lower (raw_category row));
              Pedido.price := raw_price row;
              Pedido.quantity := raw_quantity row;
              Pedido.order_date := ts;
              Pedido.payment_method := raw_payment_method row;
              Pedido.estado := PyStr.strip (PyStr.lower (raw_estado row)) |}
  end.

(** [Tools.__init__]: the table kept in [self.df], or [None] when
    [pd.to_datetime] raises. *)
Fixpoint Tools_init (pedidos_df : list RawRow) : option DataFrame :=
  match pedidos_df with
  | [] => Some []
  | row :: rest =>
      match init_row row, Tools_init rest with
      | Some r, Some df => Some (r :: df)
      | _, _ => None
      end
  end.

End Load.

(** ** The world around a call *)

(** The message built by [initiate_return_request]: the recipient and the
    values interpolated into the subject and the HTML body. *)
Record Email := mkEmail {
  msg_to : string;
  msg_order_id : string;
  msg_product : string;     (* shown title-cased *)
  msg_quantity : Z;
  msg_total : Z;
  msg_order_date : date;
  msg_reason : string
}.

(** Python exceptions, by the handler that catches them. *)
Inductive exn : Type :=
| SMTPAuthenticationError
| Exception (str_e : string)   (* any other subclass of [Exception] *)
| BaseException.               (* [KeyboardInterrupt], [SystemExit], ... *)

Inductive outcome (A : Type) : Type :=
| Returned (a : A)
| Raised (e : exn).
Arguments Returned {A} a.
Arguments Raised {A} e.

Record World := mkWorld {
  self_df : DataFrame;                 (* the attribute [self.df] *)
  clock : date;                        (* what [datetime.date.today()] gives *)
  clock_reads : nat;                   (* calls of [datetime.date.today()] *)
  smtp_server : Email -> option exn;   (* [None]: the message is delivered *)
  outbox : list Email                  (* messages handed to SMTP, latest first *)
}.

(** State and exceptions. *)
Definition M (A : Type) : Type := World -> outcome A * World.

Definition ret {A} (a : A) : M A := fun w => (Returned a, w).

Definition bind {A B} (m : M A) (k : A -> M B) : M B :=
  fun w =>
    match m w with
    | (Returned a, w') => k a w'
    | (Raised e, w') => (Raised e, w')
    end.

Notation "x <- m ;; k" := (bind m (fun x => k))
  (at level 61, m at next level, right associativity).

(** [try: body except ...: handler]; a handler answering [None] does not
    catch the exception. *)
Definition try_except {A} (body : M A) (handler : exn -> option (M A)) : M A :=
  fun w =>
    match body w with
    | (Raised e, w') =>
        match handler e with
        | Some h => h w'
        | None => (Raised e, w')
        end
    | done => done
    end.

(** [self.df] *)
Definition get_df : M DataFrame := fun w => (Returned (self_df w), w).

(** [datetime.date.today()] *)
Definition date_today : M date :=
  fun w =>
    (Returned (clock w),
     {| self_df := self_df w; clock := clock w;
        clock_reads := S (clock_reads w);
        smtp_server := smtp_server w; outbox := outbox w |}).

(** The [with smtplib.SMTP_SSL(...)] block: connect, log in, send. *)
Definition smtp_send (msg : Email) : M unit :=
  fun w =>
    let w' := {| self_df := self_df w; clock := clock w;
                 clock_reads := clock_reads w;
                 smtp_server := smtp_server w; outbox := msg :: outbox w |} in
    match smtp_server w msg with
    | None => (Returned tt, w')
    | Some e => (Raised e, w')
    end.

(** [for x in xs: body], collecting what each round produces. *)
Fixpoint for_each {A B} (xs : list A) (body : A -> M B) : M (list B) :=
  match xs with
  | [] => ret []
  | x :: rest =>
      y <- body x ;;
      ys <- for_each rest body ;;
      ret (y :: ys)
  end.

(** ** Messages *)

(** An f-string: literal text and formatted fields.  In literal text the
    two characters \n stand for a line break. *)
Inductive Piece : Type :=
| Lit (text : string)
| Str (value : string)      (* {value} *)
| Int (value : Z)           (* {value} *)
| Money (value : Z)         (* {value:,.0f} *)
| Day (value : date).       (* {value}, a date *)

Definition Message := list Piece.

(** What [evaluate_return_eligibility] returns, one constructor for each
    [return]. *)
Inductive Verdict : Type :=
| NotFound (order_id : string)
| AlreadyReturned (order_id : string)
| NotShipped (order_id : string)
| InTransit (order_id : string)
| CategoryExcluded (product categoria : string)
| WindowExpired (days_since_order : Z) (order_date : date)
| PersonalizedReviewRequired (product : string) (days_since_order : Z)
| CashPaymentReviewRequired (order_id product : string) (days_since_order : Z)
| Eligible (order_id product : string) (days_since_order : Z)
    (payment_method : string) (total : Z).

Definition render_verdict (v : Verdict) : Message :=
  match v with
  | NotFound oid =>
      [Lit "❌ No se encontró el pedido "; Str oid; Lit " en el sistema."]
  | AlreadyReturned oid =>
      [Lit "❌ El pedido "; Str oid; Lit " ya fue devuelto anteriormente."]
  | NotShipped oid =>
      [Lit "⚠️ El pedido "; Str oid;
       Lit " aún no ha sido enviado. Puedes cancelarlo sin iniciar una devolución."]
  | InTransit oid =>
      [Lit "⚠️ El pedido "; Str oid;
       Lit " está en tránsito. Espera a recibirlo para iniciar una devolución si es necesario."]
  | CategoryExcluded prod cat =>
      [Lit "❌ El producto '"; Str prod; Lit "' pertenece a la categoría '";
       Str cat; Lit "', que no admite devoluciones por política de la tienda."]
  | WindowExpired days od =>
      [Lit "❌ Han pasado "; Int days; Lit " días desde la compra (fecha: ";
       Day od; Lit "). Solo se admiten devoluciones dentro de 30 días."]
  | PersonalizedReviewRequired prod days =>
      [Lit "⚠️ El producto '"; Str prod;
       Lit "' es personalizado. La devolución requiere revisión manual del equipo. Tiempo desde compra: ";
       Int days; Lit " días."]
  | CashPaymentReviewRequired oid prod days =>
      [Lit "✅ Pedido "; Str oid;
       Lit " elegible para devolución, pero requiere revisión manual por haber sido pagado en efectivo. Producto: '";
       Str prod; Lit "'. Tiempo desde compra: "; Int days; Lit " días."]
  | Eligible oid prod days pay total =>
      [Lit "✅ El pedido "; Str oid; Lit " con producto '"; Str prod;
       Lit "' es elegible para devolución. Tiempo desde compra: "; Int days;
       Lit " días. Método de pago: "; Str pay;
       Lit ". Total a reembolsar: $"; Money total; Lit " COP."]
  end.

(** One bullet of the customer report. *)
Record OrderSummary := mkSummary {
  sum_order_id : string;
  sum_product : string;
  sum_estado : string;
  sum_total : Z;
  sum_order_date : date;
  sum_days_ago : Z
}.

(** What [search_customer_orders] returns. *)
Inductive OrderReport : Type :=
| NoOrders (customer_id : string)
| CustomerOrders (customer_id : string) (summaries : list OrderSummary).

Definition render_summary (s : OrderSummary) : Message :=
  [Lit "• Order ID: "; Str (sum_order_id s);
   Lit "\n  Producto: "; Str (sum_product s);
   Lit "\n  Estado: "; Str (sum_estado s);
   Lit "\n  Total: $"; Money (sum_total s);
   Lit " COP\n  Fecha: "; Day (sum_order_date s);
   Lit " (hace "; Int (sum_days_ago s); Lit " días)\n\n"].

Definition render_report (r : OrderReport) : Message :=
  match r with
  | NoOrders cid =>
      [Lit "❌ No se encontraron pedidos para el cliente "; Str cid; Lit "."]
  | CustomerOrders cid summaries =>
      ([Lit "📦 Pedidos del cliente "; Str cid; Lit ":\n\n"]
         ++ flat_map render_summary summaries)%list
  end.

(** Why [initiate_return_request] refuses an order it has found. *)
Inductive Rejection : Type :=
| InvalidStatus (order_id estado : string)
| NonReturnableCategory (categoria : string)
| OutsideWindow (days_since_order : Z).

(** Which [except] clause answered. *)
Inductive NotificationFailure : Type :=
| AuthenticationFailure
| DeliveryFailure (str_e order_id customer_email : string).

(** What [initiate_return_request] returns. *)
Inductive ReturnOutcome : Type :=
| OrderNotFound (order_id : string)
| Rejected (why : Rejection)
| Sent (customer_email order_id product : string) (total : Z)
| SentButNotificationFailed (failure : NotificationFailure).

Definition render_outcome (o : ReturnOutcome) : Message :=
  match o with
  | OrderNotFound oid =>
      [Lit "❌ No se encontró el pedido "; Str oid; Lit " en el sistema."]
  | Rejected (InvalidStatus oid est) =>
      [Lit "❌ El pedido "; Str oid;
       Lit " no está en estado 'recibido'. Estado actual: "; Str est;
       Lit ". No se puede iniciar devolución."]
  | Rejected (NonReturnableCategory cat) =>
      [Lit "❌ El producto pertenece a la categoría '"; Str cat;
       Lit "' que no admite devoluciones."]
  | Rejected (OutsideWindow days) =>
      [Lit "❌ Han pasado "; Int days;
       Lit " días desde la compra. Fuera del plazo de 30 días."]
  | Sent mail oid prod total =>
      [Lit "✅ Solicitud de devolución iniciada exitosamente!\n\n📧 Se ha enviado un email de confirmación a: ";
       Str mail; Lit "\n📦 Pedido: "; Str oid; Lit "\n🛍️ Producto: "; Str prod;
       Lit "\n💰 Monto a reembolsar: $"; Money total;
       Lit " COP\n\nNuestro equipo revisará tu solicitud en 24-48 horas."]
  | SentButNotificationFailed AuthenticationFailure =>
      [Lit "⚠️ Error de autenticación de email. La solicitud fue registrada pero no se pudo enviar el email de confirmación. Nuestro equipo se pondrá en contacto contigo."]
  | SentButNotificationFailed (DeliveryFailure str_e oid mail) =>
      [Lit "⚠️ La solicitud fue registrada pero hubo un problema al enviar el email: ";
       Str str_e; Lit "\nPedido "; Str oid;
       Lit " marcado para revisión. Te contactaremos a "; Str mail;
       Lit " en las próximas horas."]
  end.

(** The total a message shows: its first money field, if it has one. *)
Fixpoint message_total (m : Message) : option Z :=
  match m with
  | [] => None
  | Money t :: _ => Some t
  | _ :: rest => message_total rest
  end.

Definition verdict_total (v : Verdict) : option Z :=
  message_total (render_verdict v).

(** ** The tools *)

Module Tools.

Definition categorias_no_devolucion : list string :=
  ["higiene"; "software"; "tarjetas de regalo"].

(** [evaluate_return_eligibility(self, order_id)] *)
Definition evaluate_return_eligibility (order_id : string) : M Verdict :=
  let order_id := PyStr.strip (PyStr.upper order_id) in
  df <- get_df ;;
  match select Pedido.order_id order_id df with
  | [] => ret (NotFound order_id)
  | pedido :: _ =>
      (* 1. estado del pedido *)
      let estado := Pedido.estado pedido in
      if estado =? "devuelto" then ret (AlreadyReturned order_id) else
      if estado =? "sin enviar" then ret (NotShipped order_id) else
      if estado =? "enviado" then ret (InTransit order_id) else
      (* 2. categoria no elegible *)
      let categoria := Pedido.category pedido in
      if PyStr.contains categorias_no_devolucion categoria
      then ret (CategoryExcluded (Pedido.product pedido) categoria) else
      (* 3. dias desde la compra *)
      let order_date := Timestamp_date (Pedido.order_date pedido) in
      today <- date_today ;;
      let days_since_order := days_between today order_date in
      if (30 <? days_since_order)%Z
      then ret (WindowExpired days_since_order order_date) else
      (* 4. productos personalizados *)
      if categoria =? "personalizado"
      then ret (PersonalizedReviewRequired (Pedido.product pedido)
                  days_since_order) else
      (* 5. pago en efectivo *)
      let payment_method := PyStr.lower (Pedido.payment_method pedido) in
      if payment_method =? "efectivo"
      then ret (CashPaymentReviewRequired order_id (Pedido.product pedido)
                  days_since_order) else
      (* 6. elegible sin restricciones *)
      ret (Eligible order_id (Pedido.product pedido) days_since_order
             (Pedido.payment_method pedido)
             (Pedido.price pedido * Pedido.quantity pedido))
  end.

(** [search_customer_orders(self, customer_id)] *)
Definition search_customer_orders (customer_id : string) : M OrderReport :=
  let customer_id := PyStr.strip (PyStr.upper customer_id) in
  df <- get_df ;;
  match select Pedido.customer_id customer_id df with
  | [] => ret (NoOrders customer_id)
  | pedidos =>
      result <- for_each pedidos (fun pedido =>
        today <- date_today ;;
        let days_ago :=
          days_between today (Timestamp_date (Pedido.order_date pedido)) in
        let total := Pedido.price pedido * Pedido.quantity pedido in
        ret {| sum_order_id := Pedido.order_id pedido;
               sum_product := Pedido.product pedido;
               sum_estado := Pedido.estado pedido;
               sum_total := total;
               sum_order_date := Timestamp_date (Pedido.order_date pedido);
               sum_days_ago := days_ago |}) ;;
      ret (CustomerOrders customer_id result)
  end.

(** [initiate_return_request(self, order_id, customer_email, reason)] *)
Definition initiate_return_request (order_id customer_email reason : string)
    : M ReturnOutcome :=
  let order_id := PyStr.strip (PyStr.upper order_id) in
  df <- get_df ;;
  match select Pedido.order_id order_id df with
  | [] => ret (OrderNotFound order_id)
  | pedido :: _ =>
      let estado := Pedido.estado pedido in
      if negb (estado =? "recibido")
      then ret (Rejected (InvalidStatus order_id estado)) else
      let categoria := Pedido.category pedido in
      if PyStr.contains categorias_no_devolucion categoria
      then ret (Rejected (NonReturnableCategory categoria)) else
      let order_date := Timestamp_date (Pedido.order_date pedido) in
      today <- date_today ;;
      let days_since_order := days_between today order_date in
      if (30 <? days_since_order)%Z
      then ret (Rejected (OutsideWindow days_since_order)) else
      let total := Pedido.price pedido * Pedido.quantity pedido in
      try_except
        (_ <- smtp_send {| msg_to := customer_email;
                           msg_order_id := order_id;
                           msg_product := Pedido.product pedido;
                           msg_quantity := Pedido.quantity pedido;
                           msg_total := total;
                           msg_order_date := order_date;
                           msg_reason := reason |} ;;
         ret (Sent customer_email order_id (Pedido.product pedido) total))
        (fun e =>
           match e with
           | SMTPAuthenticationError =>
               Some (ret (SentButNotificationFailed AuthenticationFailure))
           | Exception str_e =>
               Some (ret (SentButNotificationFailed
                            (DeliveryFailure str_e order_id customer_email)))
           | BaseException => None
           end)
  end.

End Tools.

(** ** The order store seen through its two lookups *)

(** [id.upper().strip()], applied by every tool to the identifier it is
    given. *)
Definition normalize_id (s : string) : string := PyStr.strip (PyStr.upper s).

(** The lookup that opens [evaluate_return_eligibility] and
    [initiate_return_request]: filter on [order_id], then [iloc[0]]. *)
Definition find_by_order_id (df : DataFrame) (order_id : string)
    : option OrderRecord :=
  hd_error (select Pedido.order_id (normalize_id order_id) df).

(** The lookup that opens [search_customer_orders]. *)
Definition find_by_customer_id (df : DataFrame) (customer_id : string)
    : list OrderRecord :=
  select Pedido.customer_id (normalize_id customer_id) df.

(** ** Vocabulary of the properties *)

(** Two characters that are equal, or the two cases of one letter. *)
Definition same_letter (c d : ascii) : Prop :=
  c = d
  \/ (PyStr.islower c = true /\ N_of_ascii c = N_of_ascii d + 32)%N
  \/ (PyStr.islower d = true /\ N_of_ascii d = N_of_ascii c + 32)%N.

Inductive same_up_to_case : string -> string -> Prop :=
| same_case_nil : same_up_to_case "" ""
| same_case_cons c d s t :
    same_letter c d -> same_up_to_case s t ->
    same_up_to_case (String c s) (String d t).



(** A string with a lower-case letter in it. *)
Fixpoint has_lower (s : string) : bool :=
  match s with
  | EmptyString => false
  | String c s' => PyStr.islower c || has_lower s'
  end.

Definition is_window_expired (v : Verdict) : bool :=
  match v with WindowExpired _ _ => true | _ => false end.

Definition is_eligible (v : Verdict) : bool :=
  match v with Eligible _ _ _ _ _ => true | _ => false end.

Definition is_cash_review (v : Verdict) : bool :=
  match v with CashPaymentReviewRequired _ _ _ => true | _ => false end.

(** The summary [search_customer_orders] writes for one row on day [today]. *)
Definition summary_on (today : date) (pedido : OrderRecord) : OrderSummary :=
  {| sum_order_id := Pedido.order_id pedido;
     sum_product := Pedido.product pedido;
     sum_estado := Pedido.estado pedido;
     sum_total := Pedido.price pedido * Pedido.quantity pedido;
     sum_order_date := ts_date (Pedido.order_date pedido);
     sum_days_ago := today - ts_date (Pedido.order_date pedido) |}.

(** The world after [n] more readings of the clock. *)
Definition after_clock_reads (n : nat) (w : World) : World :=
  {| self_df := self_df w; clock := clock w;
     clock_reads := n + clock_reads w;
     smtp_server := smtp_server w; outbox := outbox w |}.

(** The world after [msg] was handed to the SMTP server. *)
Definition after_send (msg : Email) (w : World) : World :=
  {| self_df := self_df w; clock := clock w;
     clock_reads := clock_reads w;
     smtp_server := smtp_server w; outbox := msg :: outbox w |}.

(** The message [initiate_return_request] builds for [pedido]. *)
Definition return_email (order_id customer_email reason : string)
    (pedido : OrderRecord) : Email :=
  {| msg_to := customer_email;
     msg_order_id := order_id;
     msg_product := Pedido.product pedido;
     msg_quantity := Pedido.quantity pedido;
     msg_total := Pedido.price pedido * Pedido.quantity pedido;
     msg_order_date := ts_date (Pedido.order_date pedido);
     msg_reason := reason |}.

(** The same row, bought on the same date at another time of day. *)
Definition at_time (time : OrderRecord -> Z) (r : OrderRecord) : OrderRecord :=
  {| Pedido.order_id := Pedido.order_id r;
     Pedido.customer_id := Pedido.customer_id r;
     Pedido.product := Pedido.product r;
     Pedido.category := Pedido.category r;
     Pedido.price := Pedido.price r;
     Pedido.quantity := Pedido.quantity r;
     Pedido.order_date :=
       {| ts_date := ts_date (Pedido.order_date r); ts_time := time r |};
     Pedido.payment_method := Pedido.payment_method r;
     Pedido.estado := Pedido.estado r |}.

(** The same world around another table. *)
Definition with_df (df : DataFrame) (w : World) : World :=
  {| self_df := df; clock := clock w; clock_reads := clock_reads w;
     smtp_server := smtp_server w; outbox := outbox w |}.

(** A computation that leaves [self.df] as it found it, however it ends. *)
Definition keeps_df {A} (m : M A) : Prop :=
  forall w, self_df (snd (m w)) = self_df w.

(** ** A small order book, for concrete runs *)

Module Sample.

Definition digit (c : ascii) : option Z :=
  let n := Z.of_N (N_of_ascii c) in
  if ((48 <=? n) && (n <=? 57))%Z then Some (n - 48)%Z else None.

Fixpoint number (acc : Z) (s : string) : option Z :=
  match s with
  | EmptyString => Some acc
  | String c s' =>
      match digit c with
      | Some d => number (10 * acc + d)%Z s'
      | None => None
      end
  end.

Definition is_leap (y : Z) : bool :=
  ((y mod 4 =? 0) && (negb (y mod 100 =? 0) || (y mod 400 =? 0)))%Z.

Definition days_in_month (y m : Z) : Z :=
  (if m =? 2 then (if is_leap y then 29 else 28)
   else if (m =? 4) || (m =? 6) || (m =? 9) || (m =? 11) then 30
   else 31)%Z.

Definition days_before_month (y m : Z) : Z :=
  fold_right Z.add 0%Z
    (map (days_in_month y) (map Z.of_nat (seq 1 (Z.to_nat (m - 1))))).

(** [datetime.date(y, m, d).toordinal()] *)
Definition ordinal (y m d : Z) : Z :=
  (let y' := y - 1 in
   y' * 365 + y' / 4 - y' / 100 + y' / 400 + days_before_month y m + d)%Z.

(** A [pd.to_datetime] that reads YYYY-MM-DD. *)
Definition to_datetime (s : string) : option Timestamp :=
  if negb (String.length s =? 10)%nat then None else
  if negb ((substring 4 1 s =? "-") && (substring 7 1 s =? "-")) then None else
  match number 0 (substring 0 4 s), number 0 (substring 5 2 s),
        number 0 (substring 8 2 s) with
  | Some y, Some m, Some d =>
      if ((1 <=? y) && (1 <=? m) && (m <=? 12) && (1 <=? d)
          && (d <=? days_in_month y m))%Z
      then Some {| ts_date := ordinal y m d; ts_time := 0 |}
      else None
  | _, _, _ => None
  end.

Definition pedidos : list RawRow :=
  [ mkRawRow "O0001" "C001" "Botella Reutilizable " "General" 50000 2
      "2025-06-12" "Efectivo" "Recibido";
    mkRawRow "O0008" "C002" "Jabon Artesanal" "Higiene" 12000 3
      "2025-03-01" "Tarjeta" "Devuelto";
    mkRawRow "O0053" "C001" "Mochila Solar" "personalizado" 180000 1
      "2025-06-14" "Efectivo" " Sin Enviar";
    mkRawRow "O0020" "C003" "Licencia Huerto" "Software" 90000 1
      "2025-06-10" "PSE" "enviado";
    mkRawRow "O0030" "C001" "Cepillo Dental" "higiene" 8000 4
      "2025-06-10" "Tarjeta" "recibido";
    mkRawRow "O0040" "C002" "Termo" "general" 65000 1
      "2025-05-01" "Tarjeta" "recibido";
    mkRawRow "O0041" "C002" "Bolsa de Tela" "general" 15000 3
      "2025-05-16" "Tarjeta" "recibido";
    mkRawRow "O0060" "C003" "Taza Grabada" "Personalizado" 40000 1
      "2025-06-13" "Tarjeta" "recibido";
    mkRawRow "O0070" "C003" "Bono Regalo" "Tarjetas de Regalo" 100000 1
      "2025-06-01" "Tarjeta" "cancelado";
    mkRawRow "o0099" "c009" "Vela" "general" 20000 1
      "2025-06-11" "Tarjeta" "recibido" ].

(** [Tools(pedidos).df] *)
Definition df : DataFrame :=
  match Tools_init to_datetime pedidos with
  | Some df => df
  | None => []
  end.

Definition no_row : OrderRecord :=
  Pedido.mk "" "" "" "" 0 0 (mkTimestamp 0 0) "" "".

(** [df.iloc[n]] *)
Definition row (n : nat) : OrderRecord := nth n df no_row.

(** 2025-06-15 *)
Definition today : date := ordinal 2025 6 15.

(** A day on which the SMTP server delivers. *)
Definition world : World :=
  {| self_df := df; clock := today; clock_reads := 0%nat;
     smtp_server := fun _ => None; outbox := [] |}.

(** The same day, with an SMTP server that answers as [answer] says. *)
Definition world_with (answer : option exn) : World :=
  {| self_df := df; clock := today; clock_reads := 0%nat;
     smtp_server := fun _ => answer; outbox := [] |}.

End Sample.

(** ** The rules, read as a table *)

(** The answer of [evaluate_return_eligibility] on a row that the lookup has
    found, on the day [today]. *)
Definition verdict_on (order_id : string) (today : date)
    (pedido : OrderRecord) : Verdict :=
  let days := (today - ts_date (Pedido.order_date pedido))%Z in
  if Pedido.estado pedido =? "devuelto" then AlreadyReturned order_id else
  if Pedido.estado pedido =? "sin enviar" then NotShipped order_id else
  if Pedido.estado pedido =? "enviado" then InTransit order_id else
  if PyStr.contains Tools.categorias_no_devolucion (Pedido.category pedido)
  then CategoryExcluded (Pedido.product pedido) (Pedido.category pedido) else
  if (30 <? days)%Z
  then WindowExpired days (ts_date (Pedido.order_date pedido)) else
  if Pedido.category pedido =? "personalizado"
  then PersonalizedReviewRequired (Pedido.product pedido) days else
  if PyStr.lower (Pedido.payment_method pedido) =? "efectivo"
  then CashPaymentReviewRequired order_id (Pedido.product pedido) days else
  Eligible order_id (Pedido.product pedido) days
    (Pedido.payment_method pedido)
    (Pedido.price pedido * Pedido.quantity pedido).

(** The rows on which [evaluate_return_eligibility] answers before it asks
    for the date. *)
Definition settled_without_date (pedido : OrderRecord) : bool :=
  (Pedido.estado pedido =? "devuelto")
  || (Pedido.estado pedido =? "sin enviar")
  || (Pedido.estado pedido =? "enviado")
  || PyStr.contains Tools.categorias_no_devolucion (Pedido.category pedido).

(** The verdicts after which a return can go on, at once or after a manual
    review. *)
Definition may_proceed (v : Verdict) : bool :=
  match v with
  | PersonalizedReviewRequired _ _ | CashPaymentReviewRequired _ _ _
  | Eligible _ _ _ _ _ => true
  | _ => false
  end.

(** The three checks that [initiate_return_request] makes on a row before
    it writes the message. *)
Definition passes_checks (today : date) (pedido : OrderRecord) : bool :=
  (Pedido.estado pedido =? "recibido")
  && negb (PyStr.contains Tools.categorias_no_devolucion
             (Pedido.category pedido))
  && negb (30 <? today - ts_date (Pedido.order_date pedido))%Z.

(** ** The chat front end ([src/main.py]) *)

Module Main.

(** A [dict] from strings to strings, its entries in insertion order. *)
Definition Dict := list (string * string).

(** [d.get(key)] *)
Fixpoint get (d : Dict) (key : string) : option string :=
  match d with
  | [] => None
  | (k, v) :: rest => if k =? key then Some v else get rest key
  end.

(** [list(d.keys())] *)
Definition keys (d : Dict) : list string := map fst d.

(** How a call ends: with a value, with an [Exception] (of which [str_e] is
    the text), or with an exception that is not an [Exception]. *)
Inductive answer (A : Type) : Type :=
| Value (a : A)
| Raises (str_e : string)
| Interrupts.
Arguments Value {A} a.
Arguments Raises {A} str_e.
Arguments Interrupts {A}.

Definition and_then {A B} (m : answer A) (k : A -> answer B) : answer B :=
  match m with
  | Value a => k a
  | Raises e => Raises e
  | Interrupts => Interrupts
  end.

Notation "'let?' x := m 'in' k" := (and_then m (fun x => k))
  (at level 10, x name, m at level 100, k at level 200).

(** [row[key]]; a missing key raises [KeyError(key)], whose text is the key
    between quotes. *)
Definition getitem (row : Dict) (key : string) : answer string :=
  match get row key with
  | Some v => Value v
  | None => Raises ("'" ++ key ++ "'")
  end.

(** [Document(text=..., metadata=...)] *)
Record Document := mkDocument {
  text : string;
  metadata : Dict
}.

(** The body of the loop of [CSVReader.load_data], on one row of the
    [csv.DictReader]. *)
Definition csv_document (row : Dict) : answer Document :=
  let? t_order_id := getitem row "order_id" in
  let? t_customer_id := getitem row "customer_id" in
  let? t_product := getitem row "product" in
  let? t_category := getitem row "category" in
  let? t_quantity := getitem row "quantity" in
  let? t_price := getitem row "price" in
  let? t_order_date := getitem row "order_date" in
  let? t_estado := getitem row "estado" in
  let text :=
    "El id del pedido es " ++ t_order_id ++ ", Cliente ID: " ++ t_customer_id
    ++ ", Producto: " ++ t_product ++ ", Categoría: " ++ t_category
    ++ ", Cantidad: " ++ t_quantity ++ ", Precio: " ++ t_price
    ++ ", Fecha: " ++ t_order_date ++ ", Estado: " ++ t_estado in
  let? order_id := getitem row "order_id" in
  let? customer_id := getitem row "customer_id" in
  let? product := getitem row "product" in
  let? category := getitem row "category" in
  let? price := getitem row "price" in
  let? quantity := getitem row "quantity" in
  let? order_date := getitem row "order_date" in
  let? payment_method := getitem row "payment_method" in
  let? estado := getitem row "estado" in
  Value {| text := text;
           metadata :=
             [("order_id", order_id); ("customer_id", customer_id);
              ("product", product); ("category", category);
              ("price", price); ("quantity", quantity);
              ("order_date", order_date);
              ("payment_method", payment_method); ("estado", estado)] |}.

(** [documents.append(...)] for each row, in turn. *)
Fixpoint load_each (document : Dict -> answer Document) (rows : list Dict)
    : answer (list Document) :=
  match rows with
  | [] => Value []
  | row :: rest =>
      let? doc := document row in
      let? docs := load_each document rest in
      Value (doc :: docs)
  end.

(** [CSVReader.load_data], on the rows that [csv.DictReader] reads from the
    file. *)
Definition CSVReader_load_data (rows : list Dict) : answer (list Document) :=
  load_each csv_document rows.

(** The body of the loop of [JSONReader.load_data], on one item. *)
Definition json_document (item : Dict) : answer Document :=
  let? question := getitem item "question" in
  let? answer := getitem item "answer" in
  Value {| text := "Pregunta: " ++ question ++ " -> Respuesta: " ++ answer;
           metadata := [] |}.

(** [JSONReader.load_data], on the list that [json.load] reads from the
    file. *)
Definition JSONReader_load_data (data : list Dict) : answer (list Document) :=
  load_each json_document data.

(** What [chat_with_agent] asks of the agent and of the two indexes. *)
Record Collaborators := mkCollaborators {
  devoluciones_agent_chat : string -> answer string;
  pedidos_retrieve : string -> answer (list Dict);
  pedidos_query : string -> answer string;
  faq_query : string -> answer string
}.

Inductive Call : Type :=
| AgentChat (user_input : string)
| Retrieve (user_input : string)
| PedidosQuery (user_input : string)
| FaqQuery (user_input : string).

(** A computation that calls collaborators; the calls made are logged,
    latest first. *)
Definition C (A : Type) : Type := list Call -> answer A * list Call.

Definition pure {A} (a : A) : C A := fun log => (Value a, log).

Definition then_ {A B} (m : C A) (k : A -> C B) : C B :=
  fun log =>
    match m log with
    | (Value a, log') => k a log'
    | (Raises e, log') => (Raises e, log')
    | (Interrupts, log') => (Interrupts, log')
    end.

Notation "x <~ m ;; k" := (then_ m (fun x => k))
  (at level 61, m at next level, right associativity).

Definition call {A} (c : Call) (result : answer A) : C A :=
  fun log => (result, c :: log).

(** [try: body except Exception as e: handler(str(e))] *)
Definition try_except_Exception {A} (body : C A) (handler : string -> C A)
    : C A :=
  fun log =>
    match body log with
    | (Raises e, log') => handler e log'
    | done => done
    end.

(** [char.isdigit()], on the ASCII range. *)
Definition isdigit (c : ascii) : bool :=
  let n := N_of_ascii c in ((48 <=? n) && (n <=? 57))%N.

(** [any(p(char) for char in s)] *)
Fixpoint any (p : ascii -> bool) (s : string) : bool :=
  match s with
  | EmptyString => false
  | String c s' => p c || any p s'
  end.

(** The line break. *)
Definition nl : string := String (ascii_of_nat 10) "".

(** [chat_with_agent(agent_choice, user_input, chat_history)] *)
Definition chat_with_agent (env : Collaborators)
    (agent_choice user_input : string) (chat_history : list (string * string))
    : C (list (string * string)) :=
  if user_input =? "" then pure chat_history else
  response <~
    (if agent_choice =? "devoluciones" then
       try_except_Exception
         (call (AgentChat user_input)
            (devoluciones_agent_chat env user_input))
         (fun str_e =>
            pure ("❌ Error en el agente de devoluciones: " ++ str_e))
     else if agent_choice =? "pedidos" then
       try_except_Exception
         (let user_input_upper := PyStr.upper user_input in
          if any (Ascii.eqb "O") user_input_upper && any isdigit user_input
          then
            results <~ call (Retrieve user_input)
                         (pedidos_retrieve env user_input) ;;
            match results with
            | pedido_info :: _ =>
                pure ("📦 Información del pedido:" ++ nl
                      ++ String.concat nl
                           (map (fun kv => "• " ++ fst kv ++ ": " ++ snd kv)
                              pedido_info))
            | [] =>
                pure "❌ No se encontró información sobre el pedido solicitado."
            end
          else
            call (PedidosQuery user_input) (pedidos_query env user_input))
         (fun str_e => pure ("❌ Error: " ++ str_e))
     else if agent_choice =? "faq" then
       try_except_Exception
         (call (FaqQuery user_input) (faq_query env user_input))
         (fun str_e => pure ("❌ Error: " ++ str_e))
     else pure "❌ Selecciona un agente válido.") ;;
  pure (chat_history ++ [(user_input, response)])%list.


(** The nine columns that [CSVReader] reads, in the order of the metadata. *)
Definition columns : list string :=
  ["order_id"; "customer_id"; "product"; "category"; "price"; "quantity";
   "order_date"; "payment_method"; "estado"].

End Main.

(** * Properties *)

(** ** Characters and strings *)

Section Characters.

Local Open Scope N_scope.

Lemma upper_char_not_lower c : PyStr.islower (PyStr.upper_char c) = false.
Proof.
  destruct c as [[] [] [] [] [] [] [] []]; vm_compute; reflexivity.
Qed.




End Characters.

Lemma append_assoc (s t u : string) : ((s ++ t) ++ u = s ++ (t ++ u))%string.
Proof. induction s as [|c s IH]; simpl; [reflexivity | now rewrite IH]. Qed.











Lemma upper_no_lower s : has_lower (PyStr.upper s) = false.
Proof.
  induction s as [|c s IH]; simpl; [reflexivity|].
  now rewrite upper_char_not_lower, IH.
Qed.

Lemma lstrip_no_lower s : has_lower s = false -> has_lower (PyStr.lstrip s) = false.
Proof.
  induction s as [|c s IH]; simpl; [reflexivity|].
  intros H. destruct (PyStr.isspace c); [|exact H].
  apply orb_false_iff in H. apply IH, H.
Qed.

Lemma rstrip_no_lower s : has_lower s = false -> has_lower (PyStr.rstrip s) = false.
Proof.
  induction s as [|c s IH]; simpl; [reflexivity|].
  intros H. apply orb_false_iff in H. destruct H as [Hc Hs].
  specialize (IH Hs). destruct (PyStr.rstrip s) as [|c' t].
  - destruct (PyStr.isspace c); simpl; [reflexivity | now rewrite Hc].
  - change (has_lower (String c (String c' t)))
      with (PyStr.islower c || has_lower (String c' t)).
    now rewrite Hc, IH.
Qed.

Lemma normalize_id_no_lower s : has_lower (normalize_id s) = false.
Proof.
  unfold normalize_id, PyStr.strip.
  apply rstrip_no_lower, lstrip_no_lower, upper_no_lower.
Qed.

(** ** Running a tool on an order that the lookup finds *)

Lemma find_by_order_id_select df input pedido :
  find_by_order_id df input = Some pedido ->
  exists rest, select Pedido.order_id (normalize_id input) df = pedido :: rest.
Proof.
  unfold find_by_order_id.
  destruct (select Pedido.order_id (normalize_id input) df) as [|p rest];
    simpl; [discriminate|].
  intros H. injection H as ->. now exists rest.
Qed.

Lemma contains_true_iff xs x : PyStr.contains xs x = true <-> In x xs.
Proof.
  unfold PyStr.contains. rewrite existsb_exists. split.
  - intros [y [Hy Heq]]. apply String.eqb_eq in Heq. now subst.
  - intros H. exists x. split; [exact H | apply String.eqb_refl].
Qed.

Lemma contains_false_iff xs x : PyStr.contains xs x = false <-> ~ In x xs.
Proof.
  rewrite <- contains_true_iff. destruct (PyStr.contains xs x); split;
    congruence.
Qed.

Ltac open_tool :=
  cbv beta delta [Tools.evaluate_return_eligibility
                    Tools.initiate_return_request
                    Tools.search_customer_orders bind get_df ret];
  cbv beta iota zeta;
  change (PyStr.strip (PyStr.upper ?s)) with (normalize_id s).

Ltac found H :=
  let rest := fresh "rest" in
  let Hsel := fresh "Hsel" in
  destruct (find_by_order_id_select _ _ _ H) as [rest Hsel];
  open_tool; rewrite Hsel.

Ltac decide_eqb :=
  repeat match goal with
    | H : ?s = ?t |- context [String.eqb ?s ?t] =>
        rewrite (proj2 (String.eqb_eq s t) H)
    | H : ?s <> ?t |- context [String.eqb ?s ?t] =>
        rewrite (proj2 (String.eqb_neq s t) H)
    | H : In ?x ?xs |- context [PyStr.contains ?xs ?x] =>
        rewrite (proj2 (contains_true_iff xs x) H)
    | H : ~ In ?x ?xs |- context [PyStr.contains ?xs ?x] =>
        rewrite (proj2 (contains_false_iff xs x) H)
    end;
  cbv beta iota.

(** C1. An order whose [estado] is "devuelto", "sin enviar" or "enviado"
    is answered from its status alone, in that order of precedence:
    AlreadyReturned, NotShipped, InTransit.  The answer mentions nothing but
    the identifier, whatever the category, the order date, the price, the
    quantity and the payment method of the order are, and the world comes
    back as it was: the clock that the 30-day window needs has not been
    read. *)
Theorem status_rules_take_precedence (w : World) (input : string)
    (pedido : OrderRecord) :
  find_by_order_id (self_df w) input = Some pedido ->
  (Pedido.estado pedido = "devuelto" ->
   Tools.evaluate_return_eligibility input w
   = (Returned (AlreadyReturned (normalize_id input)), w))
  /\ (Pedido.estado pedido = "sin enviar" ->
      Tools.evaluate_return_eligibility input w
      = (Returned (NotShipped (normalize_id input)), w))
  /\ (Pedido.estado pedido = "enviado" ->
      Tools.evaluate_return_eligibility input w
      = (Returned (InTransit (normalize_id input)), w)).
Proof.
  intros Hfind. repeat split; intros Hestado; found Hfind;
    rewrite Hestado; reflexivity.
Qed.

Lemma status_rules_take_precedence_witness :
  Tools.evaluate_return_eligibility "o0008" Sample.world
  = (Returned (AlreadyReturned "O0008"), Sample.world)
  /\ Tools.evaluate_return_eligibility " O0053 " Sample.world
     = (Returned (NotShipped "O0053"), Sample.world)
  /\ Tools.evaluate_return_eligibility "O0020" Sample.world
     = (Returned (InTransit "O0020"), Sample.world).
Proof.
  split; [|split].
  - apply (status_rules_take_precedence Sample.world "o0008" (Sample.row 1));
      reflexivity.
  - apply (status_rules_take_precedence Sample.world " O0053 " (Sample.row 2));
      reflexivity.
  - apply (status_rules_take_precedence Sample.world "O0020" (Sample.row 3));
      reflexivity.
Defined.

(** C2. An order whose [estado] is none of "devuelto", "sin enviar",
    "enviado" (any other value, known or not) and whose category is one of
    higiene, software, tarjetas de regalo is answered CategoryExcluded,
    whatever its order date, price, quantity and payment method are; the
    clock is not read. *)
Theorem excluded_category_after_status (w : World) (input : string)
    (pedido : OrderRecord) :
  find_by_order_id (self_df w) input = Some pedido ->
  Pedido.estado pedido <> "devuelto" ->
  Pedido.estado pedido <> "sin enviar" ->
  Pedido.estado pedido <> "enviado" ->
  In (Pedido.category pedido) ["higiene"; "software"; "tarjetas de regalo"] ->
  Tools.evaluate_return_eligibility input w
  = (Returned (CategoryExcluded (Pedido.product pedido)
                 (Pedido.category pedido)), w).
Proof.
  intros Hfind Hd Hs He Hcat. found Hfind.
  change ["higiene"; "software"; "tarjetas de regalo"]
    with Tools.categorias_no_devolucion in Hcat.
  decide_eqb. reflexivity.
Qed.

Lemma excluded_category_after_status_witness :
  Tools.evaluate_return_eligibility "O0030" Sample.world
  = (Returned (CategoryExcluded "cepillo dental" "higiene"), Sample.world)
  /\ Tools.evaluate_return_eligibility "O0070" Sample.world
     = (Returned (CategoryExcluded "bono regalo" "tarjetas de regalo"),
        Sample.world).
Proof.
  split.
  - apply (excluded_category_after_status Sample.world "O0030" (Sample.row 4));
      [reflexivity | discriminate | discriminate | discriminate
      | simpl; tauto].
  - apply (excluded_category_after_status Sample.world "O0070" (Sample.row 8));
      [reflexivity | discriminate | discriminate | discriminate
      | simpl; tauto].
Defined.

Lemma select_at_time col value time (df : DataFrame) :
  (forall r, col (at_time time r) = col r) ->
  select col value (map (at_time time) df)
  = map (at_time time) (select col value df).
Proof.
  intros Hcol. unfold select. induction df as [|r df IH]; simpl;
    [reflexivity|].
  rewrite Hcol, IH. now destruct (col r =? value).
Qed.

Lemma time_of_day_is_ignored (time : OrderRecord -> Z) (w : World)
    (input : string) :
  fst (Tools.evaluate_return_eligibility input
         (with_df (map (at_time time) (self_df w)) w))
  = fst (Tools.evaluate_return_eligibility input w).
Proof.
  open_tool. cbn [self_df with_df].
  rewrite select_at_time by reflexivity.
  destruct (select Pedido.order_id (normalize_id input) (self_df w))
    as [|pedido rest]; [reflexivity|].
  cbn [map at_time Pedido.estado Pedido.category Pedido.product
         Pedido.order_date Pedido.payment_method Pedido.price
         Pedido.quantity].
  unfold date_today, Timestamp_date, with_df.
  repeat match goal with
    | |- context [if ?b then _ else _] =>
        destruct b; cbv beta iota; cbn [ts_date clock fst]
    end; reflexivity.
Qed.

(** C3. For an order that neither the status rules nor the category
    exclusion catch, the verdict is WindowExpired exactly when
    [today - order_date], a difference of calendar dates, is greater than
    30.  The verdict then shows that number of days; an order placed exactly
    30 days ago is not WindowExpired.  The time of day of the orders plays
    no part: with other times of day in the table the verdict is the same. *)
Theorem window_expired_iff (w : World) (input : string)
    (pedido : OrderRecord) :
  find_by_order_id (self_df w) input = Some pedido ->
  Pedido.estado pedido <> "devuelto" ->
  Pedido.estado pedido <> "sin enviar" ->
  Pedido.estado pedido <> "enviado" ->
  ~ In (Pedido.category pedido) ["higiene"; "software"; "tarjetas de regalo"] ->
  let order_date := ts_date (Pedido.order_date pedido) in
  let days_since_order := (clock w - order_date)%Z in
  exists v,
    Tools.evaluate_return_eligibility input w
    = (Returned v, after_clock_reads 1 w)
    /\ (is_window_expired v = true <-> (days_since_order > 30)%Z)
    /\ ((days_since_order > 30)%Z ->
        v = WindowExpired days_since_order order_date)
    /\ (days_since_order = 30%Z -> is_window_expired v = false)
    /\ (forall time,
        fst (Tools.evaluate_return_eligibility input
               (with_df (map (at_time time) (self_df w)) w))
        = Returned v).
Proof.
  intros Hfind Hd Hs He Hcat order_date days.
  assert (Hrun : exists v,
    Tools.evaluate_return_eligibility input w
    = (Returned v, after_clock_reads 1 w)
    /\ (is_window_expired v = true <-> (days > 30)%Z)
    /\ ((days > 30)%Z -> v = WindowExpired days order_date)
    /\ (days = 30%Z -> is_window_expired v = false)).
  { found Hfind.
    change ["higiene"; "software"; "tarjetas de regalo"]
      with Tools.categorias_no_devolucion in Hcat.
    decide_eqb.
    unfold date_today, days_between, Timestamp_date.
    fold order_date. fold days.
    destruct (30 <? days)%Z eqn:Hlate.
    - apply Z.ltb_lt in Hlate. eexists. split; [reflexivity|].
      repeat split; simpl; intros; try reflexivity; lia.
    - apply Z.ltb_ge in Hlate.
      destruct (Pedido.category pedido =? "personalizado");
        [|destruct (PyStr.lower (Pedido.payment_method pedido) =? "efectivo")];
        (eexists; split; [reflexivity|]);
        repeat split; simpl; intros; try reflexivity; try discriminate; lia. }
  destruct Hrun as [v [Hv [Hiff [Hlate H30]]]]. exists v.
  repeat split; try assumption; try apply Hiff.
  intros time. rewrite time_of_day_is_ignored, Hv. reflexivity.
Qed.

Lemma window_expired_iff_witness :
  exists v,
    Tools.evaluate_return_eligibility "O0040" Sample.world
    = (Returned v, after_clock_reads 1 Sample.world)
    /\ (is_window_expired v = true <-> (45 > 30)%Z)
    /\ ((45 > 30)%Z -> v = WindowExpired 45 (Sample.ordinal 2025 5 1))
    /\ (45 = 30%Z -> is_window_expired v = false)
    /\ (forall time,
        fst (Tools.evaluate_return_eligibility "O0040"
               (with_df (map (at_time time) Sample.df) Sample.world))
        = Returned v).
Proof.
  apply (window_expired_iff Sample.world "O0040" (Sample.row 5));
    [reflexivity | discriminate | discriminate | discriminate
    | simpl; intuition discriminate].
Defined.

(** An order bought exactly 30 days ago is still inside the window. *)
Example thirty_days_old_is_eligible :
  (Sample.today - ts_date (Pedido.order_date (Sample.row 6)) = 30)%Z
  /\ fst (Tools.evaluate_return_eligibility "O0041" Sample.world)
     = Returned (Eligible "O0041" "bolsa de tela" 30 "Tarjeta" 45000).
Proof. split; reflexivity. Qed.

(** C4, on the scenario of the specification: the order O0001 (recibido,
    general, paid in cash, 50000 x 2, bought 3 days ago) is answered
    CashPaymentReviewRequired, and that answer shows the order, the product
    and the days since the purchase, but no total: in particular it does not
    show 100000. *)
Lemma cash_review_shows_no_total :
  find_by_order_id Sample.df "O0001" = Some (Sample.row 0)
  /\ (Pedido.price (Sample.row 0) * Pedido.quantity (Sample.row 0) = 100000)%Z
  /\ Tools.evaluate_return_eligibility "O0001" Sample.world
     = (Returned (CashPaymentReviewRequired "O0001" "botella reutilizable" 3),
        after_clock_reads 1 Sample.world)
  /\ verdict_total (CashPaymentReviewRequired "O0001" "botella reutilizable" 3)
     <> Some 100000%Z.
Proof.
  repeat split; try reflexivity. vm_compute. discriminate.
Qed.

(** C4, as the code has it.  When the verdict on an order is Eligible, it
    shows a total, and that total is [price * quantity] of the order.  When
    the verdict is CashPaymentReviewRequired, it shows no total.  An order
    that is recibido, of category general, paid in efectivo and bought 3
    days ago gets CashPaymentReviewRequired with 3 days since the order. *)
Theorem eligible_verdict_shows_total (w w' : World) (input : string)
    (pedido : OrderRecord) (v : Verdict) :
  find_by_order_id (self_df w) input = Some pedido ->
  Tools.evaluate_return_eligibility input w = (Returned v, w') ->
  (is_eligible v = true ->
   verdict_total v = Some (Pedido.price pedido * Pedido.quantity pedido)%Z)
  /\ (is_cash_review v = true -> verdict_total v = None)
  /\ (Pedido.estado pedido = "recibido" ->
      Pedido.category pedido = "general" ->
      PyStr.lower (Pedido.payment_method pedido) = "efectivo" ->
      (clock w - ts_date (Pedido.order_date pedido) = 3)%Z ->
      v = CashPaymentReviewRequired (normalize_id input)
            (Pedido.product pedido) 3).
Proof.
  intros Hfind Hrun. split; [|split].
  - revert Hrun. found Hfind. unfold date_today.
    repeat match goal with
      | |- context [if ?b then _ else _] => destruct b
      end;
      intros [= <- _]; try discriminate.
    reflexivity.
  - destruct v; try discriminate. reflexivity.
  - intros Hestado Hcat Hpay Hdays. revert Hrun. found Hfind.
    rewrite Hestado, Hcat, Hpay.
    unfold date_today, days_between, Timestamp_date. cbn. rewrite Hdays.
    cbn. now intros [= <- _].
Qed.

Lemma eligible_verdict_shows_total_witness :
  verdict_total (Eligible "O0041" "bolsa de tela" 30 "Tarjeta" 45000)
  = Some (15000 * 3)%Z
  /\ verdict_total (CashPaymentReviewRequired "O0001" "botella reutilizable" 3)
     = None.
Proof.
  split.
  - apply (eligible_verdict_shows_total Sample.world
             (after_clock_reads 1 Sample.world) "O0041" (Sample.row 6)
             (Eligible "O0041" "bolsa de tela" 30 "Tarjeta" 45000));
      reflexivity.
  - apply (eligible_verdict_shows_total Sample.world
             (after_clock_reads 1 Sample.world) "O0001" (Sample.row 0)
             (CashPaymentReviewRequired "O0001" "botella reutilizable" 3));
      reflexivity.
Defined.

(** C5. An order whose [estado] is not exactly "recibido" is refused by
    [initiate_return_request] with InvalidStatus, whatever its category and
    its order date are.  The world comes back as it was: nothing was handed
    to the SMTP server and the clock was not read, so this check comes
    before the category and the 30-day checks. *)
Theorem initiate_requires_recibido (w : World)
    (input customer_email reason : string) (pedido : OrderRecord) :
  find_by_order_id (self_df w) input = Some pedido ->
  Pedido.estado pedido <> "recibido" ->
  Tools.initiate_return_request input customer_email reason w
  = (Returned (Rejected (InvalidStatus (normalize_id input)
                           (Pedido.estado pedido))), w).
Proof.
  intros Hfind Hestado. found Hfind. decide_eqb. reflexivity.
Qed.

Lemma initiate_requires_recibido_witness :
  Tools.initiate_return_request "O0020" "ana@correo.co" "no lo quiero"
    Sample.world
  = (Returned (Rejected (InvalidStatus "O0020" "enviado")), Sample.world).
Proof.
  apply (initiate_requires_recibido Sample.world "O0020" "ana@correo.co"
           "no lo quiero" (Sample.row 3));
    [reflexivity | discriminate].
Defined.

(** C6. For an order that passes the lookup, the status, the category and
    the 30-day checks of [initiate_return_request], a failure of the SMTP
    exchange (an authentication error, or any other [Exception]) does not
    leave the method as an exception.  The method returns
    SentButNotificationFailed, after the message was handed to the server
    once; the authentication error and the other failures get different
    answers, with different texts. *)
Theorem notification_failure_is_returned (w : World)
    (input customer_email reason : string) (pedido : OrderRecord) (e : exn) :
  find_by_order_id (self_df w) input = Some pedido ->
  Pedido.estado pedido = "recibido" ->
  ~ In (Pedido.category pedido) ["higiene"; "software"; "tarjetas de regalo"] ->
  (clock w - ts_date (Pedido.order_date pedido) <= 30)%Z ->
  let msg := return_email (normalize_id input) customer_email reason pedido in
  smtp_server w msg = Some e ->
  e <> BaseException ->
  exists failure,
    Tools.initiate_return_request input customer_email reason w
    = (Returned (SentButNotificationFailed failure),
       after_send msg (after_clock_reads 1 w))
    /\ (e = SMTPAuthenticationError -> failure = AuthenticationFailure)
    /\ (forall str_e, e = Exception str_e ->
        failure = DeliveryFailure str_e (normalize_id input) customer_email)
    /\ (forall str_e oid mail,
        render_outcome (SentButNotificationFailed AuthenticationFailure)
        <> render_outcome
             (SentButNotificationFailed (DeliveryFailure str_e oid mail))).
Proof.
  intros Hfind Hestado Hcat Hdays msg Hsmtp Hexc. found Hfind.
  change ["higiene"; "software"; "tarjetas de regalo"]
    with Tools.categorias_no_devolucion in Hcat.
  decide_eqb. cbn [negb].
  unfold date_today, days_between, Timestamp_date, try_except, smtp_send.
  cbv beta iota. cbn [clock].
  replace (30 <? clock w - ts_date (Pedido.order_date pedido))%Z with false
    by (symmetry; apply Z.ltb_ge; exact Hdays).
  cbv beta iota. cbn [smtp_server self_df clock clock_reads outbox].
  fold (return_email (normalize_id input) customer_email reason pedido).
  fold msg. rewrite Hsmtp.
  destruct e as [|str_e|]; [| |congruence];
    (eexists; split; [reflexivity|]);
    repeat split; intros; try congruence; discriminate.
Qed.

Lemma notification_failure_is_returned_witness :
  exists failure,
    Tools.initiate_return_request "o0041" "ana@correo.co" "talla"
      (Sample.world_with (Some (Exception "timed out")))
    = (Returned (SentButNotificationFailed failure),
       after_send
         (return_email "O0041" "ana@correo.co" "talla" (Sample.row 6))
         (after_clock_reads 1
            (Sample.world_with (Some (Exception "timed out")))))
    /\ (Exception "timed out" = SMTPAuthenticationError ->
        failure = AuthenticationFailure)
    /\ (forall str_e, Exception "timed out" = Exception str_e ->
        failure = DeliveryFailure str_e "O0041" "ana@correo.co")
    /\ (forall str_e oid mail,
        render_outcome (SentButNotificationFailed AuthenticationFailure)
        <> render_outcome
             (SentButNotificationFailed (DeliveryFailure str_e oid mail))).
Proof.
  apply (notification_failure_is_returned
           (Sample.world_with (Some (Exception "timed out")))
           "o0041" "ana@correo.co" "talla" (Sample.row 6)
           (Exception "timed out"));
    [reflexivity | reflexivity | simpl; intuition discriminate
    | vm_compute; discriminate | reflexivity | discriminate].
Defined.

(** The same request when the server delivers, and when the call is
    interrupted by something that is not an [Exception]: only the latter
    leaves the method as an exception. *)
Example delivered_or_interrupted :
  fst (Tools.initiate_return_request "o0041" "ana@correo.co" "talla"
         Sample.world)
  = Returned (Sent "ana@correo.co" "O0041" "bolsa de tela" 45000)
  /\ fst (Tools.initiate_return_request "o0041" "ana@correo.co" "talla"
            (Sample.world_with (Some SMTPAuthenticationError)))
     = Returned (SentButNotificationFailed AuthenticationFailure)
  /\ fst (Tools.initiate_return_request "o0041" "ana@correo.co" "talla"
            (Sample.world_with (Some BaseException)))
     = Raised BaseException.
Proof. repeat split. Qed.

(** ** Lookups *)

Lemma select_app col value (df1 df2 : DataFrame) :
  select col value (df1 ++ df2)%list
  = (select col value df1 ++ select col value df2)%list.
Proof. unfold select. apply filter_app. Qed.

Lemma select_nil_iff col value (df : DataFrame) :
  select col value df = [] <-> forall r, In r df -> col r <> value.
Proof.
  unfold select. induction df as [|r df IH]; simpl.
  - split; [intros _ r [] | reflexivity].
  - destruct (String.eqb_spec (col r) value) as [Heq | Hne].
    + split; [discriminate|]. intros H. exfalso. apply (H r); auto.
    + rewrite IH. split.
      * intros H r' [<- | Hin]; auto.
      * intros H r' Hin. apply H. now right.
Qed.



(** ** The customer report *)

Lemma after_no_clock_read w : after_clock_reads 0 w = w.
Proof. destruct w. reflexivity. Qed.

Lemma after_clock_reads_succ n w :
  after_clock_reads n (after_clock_reads 1 w) = after_clock_reads (S n) w.
Proof.
  unfold after_clock_reads. simpl. f_equal. apply Nat.add_succ_r.
Qed.

Lemma for_each_summary (pedidos : list OrderRecord) (w : World) :
  for_each pedidos (fun pedido =>
    today <- date_today ;;
    ret {| sum_order_id := Pedido.order_id pedido;
           sum_product := Pedido.product pedido;
           sum_estado := Pedido.estado pedido;
           sum_total := (Pedido.price pedido * Pedido.quantity pedido)%Z;
           sum_order_date := Timestamp_date (Pedido.order_date pedido);
           sum_days_ago :=
             days_between today (Timestamp_date (Pedido.order_date pedido))
        |}) w
  = (Returned (map (summary_on (clock w)) pedidos),
     after_clock_reads (length pedidos) w).
Proof.
  revert w. induction pedidos as [|pedido rest IH]; intros w.
  - simpl. unfold ret. now rewrite after_no_clock_read.
  - cbn [for_each]. unfold bind at 1. unfold bind at 1.
    unfold date_today at 1. unfold ret at 1. unfold bind at 1.
    rewrite IH. unfold ret. cbn [clock map length].
    change (mkWorld (self_df w) (clock w) (S (clock_reads w)) (smtp_server w)
              (outbox w)) with (after_clock_reads 1 w).
    now rewrite after_clock_reads_succ.
Qed.


(** ** The order store is only read *)

Lemma keeps_df_ret {A} (a : A) : keeps_df (ret a).
Proof. intros w. reflexivity. Qed.

Lemma keeps_df_bind {A B} (m : M A) (k : A -> M B) :
  keeps_df m -> (forall a, keeps_df (k a)) -> keeps_df (bind m k).
Proof.
  intros Hm Hk w. unfold bind. specialize (Hm w).
  destruct (m w) as [[a | e] w']; simpl in *; [|exact Hm].
  now rewrite (Hk a w').
Qed.

Lemma keeps_df_get : keeps_df get_df.
Proof. intros w. reflexivity. Qed.

Lemma keeps_df_today : keeps_df date_today.
Proof. intros w. reflexivity. Qed.

Lemma keeps_df_send msg : keeps_df (smtp_send msg).
Proof. intros w. unfold smtp_send. now destruct (smtp_server w msg). Qed.

Lemma keeps_df_try {A} (body : M A) handler :
  keeps_df body ->
  (forall e h, handler e = Some h -> keeps_df h) ->
  keeps_df (try_except body handler).
Proof.
  intros Hb Hh w. unfold try_except. specialize (Hb w).
  destruct (body w) as [[a | e] w']; simpl in *; [exact Hb|].
  destruct (handler e) as [h|] eqn:He; simpl; [|exact Hb].
  now rewrite (Hh e h He w').
Qed.

Lemma keeps_df_for_each {A B} (xs : list A) (body : A -> M B) :
  (forall x, keeps_df (body x)) -> keeps_df (for_each xs body).
Proof.
  intros Hbody. induction xs as [|x xs IH]; simpl.
  - apply keeps_df_ret.
  - apply keeps_df_bind; [apply Hbody|]. intros y.
    apply keeps_df_bind; [exact IH|]. intros ys. apply keeps_df_ret.
Qed.

Ltac keeps_df_step :=
  first
    [ apply keeps_df_ret | apply keeps_df_get | apply keeps_df_today
    | apply keeps_df_send
    | apply keeps_df_bind; [|intro]
    | apply keeps_df_for_each; intro
    | apply keeps_df_try; [|intros [|?|] ? [= <-]]
    | match goal with
      | |- keeps_df (if ?b then _ else _) => destruct b
      | |- keeps_df (match ?l with [] => _ | _ :: _ => _ end) => destruct l
      end ].

(** C9. No tool writes to the order store: after
    [evaluate_return_eligibility], [search_customer_orders] and
    [initiate_return_request], on every input and however the call ends (an
    answer of any kind, or an exception that escapes), [self.df] holds the
    rows it held before. *)
Theorem order_store_is_read_only (w : World) :
  (forall order_id,
   self_df (snd (Tools.evaluate_return_eligibility order_id w)) = self_df w)
  /\ (forall customer_id,
      self_df (snd (Tools.search_customer_orders customer_id w)) = self_df w)
  /\ (forall order_id customer_email reason,
      self_df (snd (Tools.initiate_return_request order_id customer_email
                      reason w))
      = self_df w).
Proof.
  repeat split; intros.
  - assert (H : keeps_df (Tools.evaluate_return_eligibility order_id)).
    { unfold Tools.evaluate_return_eligibility. cbv zeta.
      repeat keeps_df_step. }
    apply H.
  - assert (H : keeps_df (Tools.search_customer_orders customer_id)).
    { unfold Tools.search_customer_orders. cbv zeta.
      repeat keeps_df_step. }
    apply H.
  - assert (H : keeps_df (Tools.initiate_return_request order_id
                            customer_email reason)).
    { unfold Tools.initiate_return_request. cbv zeta.
      repeat keeps_df_step. }
    apply H.
Qed.

(** ** Loading *)

Section LoadFacts.

Variable to_datetime : string -> option Timestamp.

Lemma init_row_fields (row : RawRow) (r : OrderRecord) :
  init_row to_datetime row = Some r ->
  Pedido.order_id r = raw_order_id row
  /\ Pedido.customer_id r = raw_customer_id row
  /\ Pedido.product r = PyStr.strip (PyStr.lower (raw_product row))
  /\ Pedido.category r = PyStr.strip (PyStr.lower (raw_category row))
  /\ Pedido.estado r = PyStr.strip (PyStr.lower (raw_estado row))
  /\ Pedido.price r = raw_price row
  /\ Pedido.quantity r = raw_quantity row
  /\ Pedido.payment_method r = raw_payment_method row.
Proof.
  unfold init_row. destruct (to_datetime (raw_order_date row));
    [|discriminate].
  intros [= <-]. repeat split.
Qed.

Lemma Tools_init_rows (pedidos : list RawRow) (df : DataFrame) :
  Tools_init to_datetime pedidos = Some df ->
  Forall2 (fun row r => init_row to_datetime row = Some r) pedidos df.
Proof.
  revert df. induction pedidos as [|row rest IH]; simpl; intros df.
  - intros [= <-]. constructor.
  - destruct (init_row to_datetime row) as [r|] eqn:Hrow; [|discriminate].
    destruct (Tools_init to_datetime rest) as [df'|]; [|discriminate].
    intros [= <-]. constructor; auto.
Qed.

Lemma Tools_init_column {A} (raw : RawRow -> A) (col : OrderRecord -> A)
    (pedidos : list RawRow) (df : DataFrame) :
  (forall row r, init_row to_datetime row = Some r -> col r = raw row) ->
  Tools_init to_datetime pedidos = Some df ->
  map col df = map raw pedidos.
Proof.
  intros Hcol Hinit. apply Tools_init_rows in Hinit.
  induction Hinit as [|row r rest df Hrow _ IH]; simpl; [reflexivity|].
  now rewrite (Hcol row r Hrow), IH.
Qed.

End LoadFacts.

Lemma lowercase_never_matches (stored input : string) :
  has_lower stored = true -> (stored =? normalize_id input) = false.
Proof.
  intros Hlow. apply String.eqb_neq. intros ->.
  now rewrite normalize_id_no_lower in Hlow.
Qed.

Lemma select_matches col value (df : DataFrame) r :
  In r (select col value df) -> (col r =? value) = true.
Proof. unfold select. intros H. apply filter_In in H. apply H. Qed.

(** C10. Loading lower-cases and trims the columns product, category and
    estado and copies every other column, order_id and customer_id among
    them, as it is.  Hence a stored row whose order_id has a lower-case
    letter is matched by no input: the comparison made by
    [evaluate_return_eligibility] and [initiate_return_request] is false on
    that row, the row is not among those selected and is not the one looked
    up.  Likewise a row whose customer_id has a lower-case letter is never
    among the rows that [search_customer_orders] selects. *)
Theorem lowercase_ids_are_never_matched
    (to_datetime : string -> option Timestamp)
    (pedidos : list RawRow) (df : DataFrame) :
  Tools_init to_datetime pedidos = Some df ->
  (map Pedido.order_id df = map raw_order_id pedidos
   /\ map Pedido.customer_id df = map raw_customer_id pedidos
   /\ map Pedido.product df
      = map (fun row => PyStr.strip (PyStr.lower (raw_product row))) pedidos
   /\ map Pedido.category df
      = map (fun row => PyStr.strip (PyStr.lower (raw_category row))) pedidos
   /\ map Pedido.estado df
      = map (fun row => PyStr.strip (PyStr.lower (raw_estado row))) pedidos
   /\ map Pedido.price df = map raw_price pedidos
   /\ map Pedido.quantity df = map raw_quantity pedidos
   /\ map Pedido.payment_method df = map raw_payment_method pedidos)
  /\ (forall r input,
      In r df -> has_lower (Pedido.order_id r) = true ->
      (Pedido.order_id r =? PyStr.strip (PyStr.upper input)) = false
      /\ ~ In r (select Pedido.order_id (PyStr.strip (PyStr.upper input)) df)
      /\ find_by_order_id df input <> Some r)
  /\ (forall r input,
      In r df -> has_lower (Pedido.customer_id r) = true ->
      (Pedido.customer_id r =? PyStr.strip (PyStr.upper input)) = false
      /\ ~ In r (find_by_customer_id df input)).
Proof.
  intros Hinit. split; [|split].
  - repeat split;
      apply (Tools_init_column to_datetime _ _ pedidos df); trivial;
      intros row r Hrow; apply (init_row_fields to_datetime row r Hrow).
  - intros r input _ Hlow.
    pose proof (lowercase_never_matches _ input Hlow) as Hne.
    split; [exact Hne|]. split.
    + intros Hin. apply select_matches in Hin.
      unfold normalize_id in Hne. congruence.
    + intros Hfind. apply find_by_order_id_select in Hfind.
      destruct Hfind as [rest Hsel].
      assert (Hin : In r (select Pedido.order_id (normalize_id input) df))
        by (rewrite Hsel; now left).
      apply select_matches in Hin. congruence.
  - intros r input _ Hlow.
    pose proof (lowercase_never_matches _ input Hlow) as Hne.
    split; [exact Hne|].
    intros Hin. apply select_matches in Hin. congruence.
Qed.

Lemma lowercase_ids_are_never_matched_witness :
  Tools_init Sample.to_datetime Sample.pedidos = Some Sample.df
  /\ Pedido.order_id (Sample.row 9) = "o0099"
  /\ find_by_order_id Sample.df "o0099" <> Some (Sample.row 9)
  /\ ~ In (Sample.row 9) (find_by_customer_id Sample.df "c009").
Proof.
  destruct (lowercase_ids_are_never_matched Sample.to_datetime Sample.pedidos
              Sample.df eq_refl) as [_ [Horder Hcustomer]].
  split; [reflexivity|]. split; [reflexivity|]. split.
  - apply (Horder (Sample.row 9) "o0099"); [|reflexivity].
    vm_compute. tauto.
  - apply (Hcustomer (Sample.row 9) "c009"); [|reflexivity].
    vm_compute. tauto.
Defined.

(** The row o0099 of the sample cannot be reached: both tools answer that
    the order does not exist, and its customer has no orders. *)
Example unreachable_row :
  fst (Tools.evaluate_return_eligibility "o0099" Sample.world)
  = Returned (NotFound "O0099")
  /\ fst (Tools.initiate_return_request "o0099" "a@b.co" "x" Sample.world)
     = Returned (OrderNotFound "O0099")
  /\ fst (Tools.search_customer_orders "c009" Sample.world)
     = Returned (NoOrders "C009").
Proof. repeat split. Qed.

(** * Further properties of the tools *)

(** ** The tools, step by step *)

Lemma evaluate_run (w : World) (input : string) :
  Tools.evaluate_return_eligibility input w
  = match find_by_order_id (self_df w) input with
    | None => (Returned (NotFound (normalize_id input)), w)
    | Some pedido =>
        (Returned (verdict_on (normalize_id input) (clock w) pedido),
         if settled_without_date pedido then w else after_clock_reads 1 w)
    end.
Proof.
  open_tool. unfold find_by_order_id.
  destruct (select Pedido.order_id (normalize_id input) (self_df w))
    as [|pedido rest]; [reflexivity|].
  cbn [hd_error]. unfold verdict_on, settled_without_date.
  destruct (Pedido.estado pedido =? "devuelto"); [reflexivity|].
  destruct (Pedido.estado pedido =? "sin enviar"); [reflexivity|].
  destruct (Pedido.estado pedido =? "enviado"); [reflexivity|].
  destruct (PyStr.contains Tools.categorias_no_devolucion
              (Pedido.category pedido)); [reflexivity|].
  unfold date_today, days_between, Timestamp_date. cbn [orb].
  repeat match goal with
    | |- context [if ?b then _ else _] => destruct b
    end; reflexivity.
Qed.

Lemma initiate_run (w : World) (input customer_email reason : string) :
  Tools.initiate_return_request input customer_email reason w
  = match find_by_order_id (self_df w) input with
    | None => (Returned (OrderNotFound (normalize_id input)), w)
    | Some pedido =>
        let days := (clock w - ts_date (Pedido.order_date pedido))%Z in
        let msg :=
          return_email (normalize_id input) customer_email reason pedido in
        if negb (Pedido.estado pedido =? "recibido")
        then (Returned (Rejected (InvalidStatus (normalize_id input)
                                    (Pedido.estado pedido))), w) else
        if PyStr.contains Tools.categorias_no_devolucion
             (Pedido.category pedido)
        then (Returned (Rejected (NonReturnableCategory
                                    (Pedido.category pedido))), w) else
        if (30 <? days)%Z
        then (Returned (Rejected (OutsideWindow days)),
              after_clock_reads 1 w) else
        (match smtp_server w msg with
         | None =>
             Returned (Sent customer_email (normalize_id input)
                         (Pedido.product pedido)
                         (Pedido.price pedido * Pedido.quantity pedido))
         | Some SMTPAuthenticationError =>
             Returned (SentButNotificationFailed AuthenticationFailure)
         | Some (Exception str_e) =>
             Returned (SentButNotificationFailed
                         (DeliveryFailure str_e (normalize_id input)
                            customer_email))
         | Some BaseException => Raised BaseException
         end,
         after_send msg (after_clock_reads 1 w))
    end.
Proof.
  open_tool. unfold find_by_order_id.
  destruct (select Pedido.order_id (normalize_id input) (self_df w))
    as [|pedido rest]; [reflexivity|].
  cbn [hd_error]. cbv zeta.
  destruct (negb (Pedido.estado pedido =? "recibido")); [reflexivity|].
  destruct (PyStr.contains Tools.categorias_no_devolucion
              (Pedido.category pedido)); [reflexivity|].
  unfold date_today, days_between, Timestamp_date.
  destruct (30 <? clock w - ts_date (Pedido.order_date pedido))%Z;
    [reflexivity|].
  unfold try_except, smtp_send.
  cbn [smtp_server self_df clock clock_reads outbox].
  fold (return_email (normalize_id input) customer_email reason pedido).
  destruct (smtp_server w
              (return_email (normalize_id input) customer_email reason pedido))
    as [[|str_e|]|]; reflexivity.
Qed.

Section LowerCase.

Local Open Scope N_scope.

Lemma same_letter_lower_char c : same_letter c (PyStr.lower_char c).
Proof.
  destruct c as [[] [] [] [] [] [] [] []];
    first [ left; reflexivity | right; right; split; reflexivity ].
Qed.

Lemma lower_char_of_lower c d :
  PyStr.islower c = true -> N_of_ascii c = N_of_ascii d + 32 ->
  PyStr.lower_char c = c /\ PyStr.lower_char d = c.
Proof.
  intros Hc Hcd. unfold PyStr.lower_char, PyStr.isupper.
  unfold PyStr.islower in Hc.
  apply andb_true_iff in Hc. destruct Hc as [Hlo Hhi].
  apply N.leb_le in Hlo, Hhi. split.
  - replace (N_of_ascii c <=? 90) with false
      by (symmetry; apply N.leb_gt; lia).
    now rewrite andb_false_r.
  - replace (65 <=? N_of_ascii d) with true
      by (symmetry; apply N.leb_le; lia).
    replace (N_of_ascii d <=? 90) with true
      by (symmetry; apply N.leb_le; lia).
    cbn [andb]. rewrite <- Hcd. apply ascii_N_embedding.
Qed.

Lemma same_letter_lower c d :
  same_letter c d -> PyStr.lower_char c = PyStr.lower_char d.
Proof.
  intros [-> | [[Hc Hcd] | [Hd Hdc]]].
  - reflexivity.
  - destruct (lower_char_of_lower c d Hc Hcd) as [-> ->]. reflexivity.
  - destruct (lower_char_of_lower d c Hd Hdc) as [-> ->]. reflexivity.
Qed.

End LowerCase.

Lemma lower_same_case x y :
  same_up_to_case x y -> PyStr.lower x = PyStr.lower y.
Proof.
  induction 1 as [|c d s t Hcd _ IH]; simpl; [reflexivity|].
  now rewrite (same_letter_lower c d Hcd), IH.
Qed.

Lemma same_case_as_lower s : same_up_to_case s (PyStr.lower s).
Proof.
  induction s as [|c s IH]; simpl; constructor;
    [apply same_letter_lower_char | exact IH].
Qed.

Lemma lower_eq_iff_same_case (s t : string) :
  PyStr.lower t = t ->
  PyStr.lower s = t <-> same_up_to_case s t.
Proof.
  intros Ht. split.
  - intros <-. apply same_case_as_lower.
  - intros H. apply lower_same_case in H. congruence.
Qed.

(** ** Orders that are not in the store, and orders stored twice *)



Lemma find_first_match (before rest : DataFrame) (r : OrderRecord)
    (input : string) :
  (forall r', In r' before -> Pedido.order_id r' <> normalize_id input) ->
  Pedido.order_id r = normalize_id input ->
  find_by_order_id (before ++ r :: rest)%list input = Some r.
Proof.
  intros Hbefore Hr. unfold find_by_order_id. rewrite select_app.
  apply (select_nil_iff Pedido.order_id) in Hbefore. rewrite Hbefore.
  unfold select. cbn [filter app].
  rewrite (proj2 (String.eqb_eq _ _) Hr). reflexivity.
Qed.

(** When several stored rows carry the same identifier, the first one in
    storage order is the order: rows after it, whatever they hold, and rows
    before it with other identifiers change neither the verdict nor what
    [initiate_return_request] answers and sends. *)
Theorem first_matching_row_wins (w : World) (before rest : DataFrame)
    (r : OrderRecord) (input customer_email reason : string) :
  (forall r', In r' before ->
              Pedido.order_id r' <> PyStr.strip (PyStr.upper input)) ->
  Pedido.order_id r = PyStr.strip (PyStr.upper input) ->
  let stored := with_df (before ++ r :: rest)%list w in
  let alone := with_df [r] w in
  fst (Tools.evaluate_return_eligibility input stored)
  = fst (Tools.evaluate_return_eligibility input alone)
  /\ fst (Tools.initiate_return_request input customer_email reason stored)
     = fst (Tools.initiate_return_request input customer_email reason alone)
  /\ outbox (snd (Tools.initiate_return_request input customer_email reason
                    stored))
     = outbox (snd (Tools.initiate_return_request input customer_email reason
                      alone)).
Proof.
  intros Hbefore Hr stored alone.
  pose proof (find_first_match before rest r input Hbefore Hr) as Hstored.
  pose proof (find_first_match [] [] r input (fun _ H => match H with end) Hr)
    as Halone.
  rewrite !evaluate_run, !initiate_run.
  unfold stored, alone. cbn [self_df with_df clock smtp_server app] in *.
  rewrite Hstored, Halone. cbv zeta.
  repeat split;
    repeat match goal with
      | |- context [if ?b then _ else _] => destruct b
      end; reflexivity.
Qed.

Lemma first_matching_row_wins_witness :
  fst (Tools.evaluate_return_eligibility "o0008"
         (with_df
            ([Sample.row 0] ++ Sample.row 1
               :: [Pedido.mk "O0008" "C777" "otro" "general" 1 1
                     (mkTimestamp Sample.today 0) "Tarjeta" "recibido"])%list
            Sample.world))
  = Returned (AlreadyReturned "O0008").
Proof.
  refine (eq_trans
    (proj1 (first_matching_row_wins Sample.world [Sample.row 0]
              [Pedido.mk "O0008" "C777" "otro" "general" 1 1
                 (mkTimestamp Sample.today 0) "Tarjeta" "recibido"]
              (Sample.row 1) "o0008" "" "" _ _)) _).
  - intros r' [<- | []]. vm_compute. discriminate.
  - reflexivity.
  - reflexivity.
Defined.

(** ** The last three rules of the verdict *)

Ltac use_status_hyps :=
  repeat match goal with
    | H : ?s <> ?t |- context [String.eqb ?s ?t] =>
        rewrite (proj2 (String.eqb_neq s t) H)
    | H : ?s = ?t |- context [String.eqb ?s ?t] =>
        rewrite (proj2 (String.eqb_eq s t) H)
    | H : ~ In ?x ?xs |- context [PyStr.contains ?xs ?x] =>
        rewrite (proj2 (contains_false_iff xs x) H)
    | H : In ?x ?xs |- context [PyStr.contains ?xs ?x] =>
        rewrite (proj2 (contains_true_iff xs x) H)
    | H : (?d <= 30)%Z |- context [(30 <? ?d)%Z] =>
        rewrite (proj2 (Z.ltb_ge 30 d) H)
    | H : (?d > 30)%Z |- context [(30 <? ?d)%Z] =>
        rewrite (proj2 (Z.ltb_lt 30 d) (Z.gt_lt _ _ H))
    end.

(** A personalised product bought within the last 30 days, whose status is
    none of devuelto, sin enviar, enviado, is sent to manual review, and this
    rule comes before the one on cash: the answer is the same whatever the
    payment method is, efectivo included. *)
Theorem personalized_goes_to_review (w : World) (input : string)
    (pedido : OrderRecord) :
  find_by_order_id (self_df w) input = Some pedido ->
  Pedido.estado pedido <> "devuelto" ->
  Pedido.estado pedido <> "sin enviar" ->
  Pedido.estado pedido <> "enviado" ->
  Pedido.category pedido = "personalizado" ->
  (clock w - ts_date (Pedido.order_date pedido) <= 30)%Z ->
  Tools.evaluate_return_eligibility input w
  = (Returned (PersonalizedReviewRequired (Pedido.product pedido)
                 (clock w - ts_date (Pedido.order_date pedido))),
     after_clock_reads 1 w).
Proof.
  intros Hfind Hd Hs He Hcat Hdays. rewrite evaluate_run, Hfind.
  unfold verdict_on, settled_without_date. cbv zeta.
  use_status_hyps. rewrite Hcat. reflexivity.
Qed.

Lemma personalized_goes_to_review_witness :
  Tools.evaluate_return_eligibility "O0060" Sample.world
  = (Returned (PersonalizedReviewRequired "taza grabada" 2),
     after_clock_reads 1 Sample.world).
Proof.
  apply (personalized_goes_to_review Sample.world "O0060" (Sample.row 7));
    solve [reflexivity | discriminate].
Defined.

(** For an order that passes the status, category and window rules and is
    not personalised, the payment method decides, and it is compared without
    regard to letter case but otherwise exactly (it is not trimmed): the
    verdict is CashPaymentReviewRequired when the payment method is
    "efectivo" up to case, and Eligible otherwise.  The Eligible answer
    shows the payment method as stored and the total [price * quantity]. *)
Theorem cash_is_told_by_case_only (w : World) (input : string)
    (pedido : OrderRecord) :
  find_by_order_id (self_df w) input = Some pedido ->
  Pedido.estado pedido <> "devuelto" ->
  Pedido.estado pedido <> "sin enviar" ->
  Pedido.estado pedido <> "enviado" ->
  ~ In (Pedido.category pedido) ["higiene"; "software"; "tarjetas de regalo"] ->
  Pedido.category pedido <> "personalizado" ->
  (clock w - ts_date (Pedido.order_date pedido) <= 30)%Z ->
  let days := (clock w - ts_date (Pedido.order_date pedido))%Z in
  (same_up_to_case (Pedido.payment_method pedido) "efectivo" ->
   Tools.evaluate_return_eligibility input w
   = (Returned (CashPaymentReviewRequired (normalize_id input)
                  (Pedido.product pedido) days),
      after_clock_reads 1 w))
  /\ (~ same_up_to_case (Pedido.payment_method pedido) "efectivo" ->
      Tools.evaluate_return_eligibility input w
      = (Returned (Eligible (normalize_id input) (Pedido.product pedido) days
                     (Pedido.payment_method pedido)
                     (Pedido.price pedido * Pedido.quantity pedido)),
         after_clock_reads 1 w)).
Proof.
  intros Hfind Hd Hs He Hcat Hpers Hdays days.
  change ["higiene"; "software"; "tarjetas de regalo"]
    with Tools.categorias_no_devolucion in Hcat.
  rewrite evaluate_run, Hfind.
  unfold verdict_on, settled_without_date. cbv zeta.
  use_status_hyps. cbn [orb]. fold days.
  split; intros Hpay.
  - apply (lower_eq_iff_same_case _ "efectivo" eq_refl) in Hpay.
    now rewrite Hpay.
  - destruct (String.eqb_spec (PyStr.lower (Pedido.payment_method pedido))
                "efectivo") as [Heq | Hne]; [|reflexivity].
    exfalso. apply Hpay.
    now apply (lower_eq_iff_same_case _ "efectivo" eq_refl).
Qed.

Lemma cash_is_told_by_case_only_witness :
  Tools.evaluate_return_eligibility "O0001" Sample.world
  = (Returned (CashPaymentReviewRequired "O0001" "botella reutilizable" 3),
     after_clock_reads 1 Sample.world)
  /\ Tools.evaluate_return_eligibility "O0001"
       (with_df [Pedido.mk "O0001" "C001" "botella" "general" 50000 2
                   (mkTimestamp Sample.today 0) "efectivo " "recibido"]
          Sample.world)
     = (Returned (Eligible "O0001" "botella" 0 "efectivo " 100000),
        after_clock_reads 1
          (with_df [Pedido.mk "O0001" "C001" "botella" "general" 50000 2
                      (mkTimestamp Sample.today 0) "efectivo " "recibido"]
             Sample.world)).
Proof.
  split.
  - apply (cash_is_told_by_case_only Sample.world "O0001" (Sample.row 0));
      try solve [reflexivity | discriminate | vm_compute; discriminate
                | simpl; intuition discriminate].
    apply (lower_eq_iff_same_case _ "efectivo" eq_refl). reflexivity.
  - apply (cash_is_told_by_case_only
             (with_df [Pedido.mk "O0001" "C001" "botella" "general" 50000 2
                         (mkTimestamp Sample.today 0) "efectivo " "recibido"]
                Sample.world)
             "O0001"
             (Pedido.mk "O0001" "C001" "botella" "general" 50000 2
                (mkTimestamp Sample.today 0) "efectivo " "recibido"));
      try solve [reflexivity | discriminate | vm_compute; discriminate
                | simpl; intuition discriminate].
    intros H. apply lower_same_case in H. discriminate.
Defined.

(** A verdict that lets the return go on (Eligible, or one of the two manual
    reviews) is only ever given for a stored order whose status is none of
    devuelto, sin enviar, enviado, whose category is returnable and which
    was bought at most 30 days ago. *)
Theorem go_ahead_only_within_rules (w w' : World) (input : string)
    (v : Verdict) :
  Tools.evaluate_return_eligibility input w = (Returned v, w') ->
  may_proceed v = true ->
  exists pedido,
    find_by_order_id (self_df w) input = Some pedido
    /\ Pedido.estado pedido <> "devuelto"
    /\ Pedido.estado pedido <> "sin enviar"
    /\ Pedido.estado pedido <> "enviado"
    /\ ~ In (Pedido.category pedido)
           ["higiene"; "software"; "tarjetas de regalo"]
    /\ (clock w - ts_date (Pedido.order_date pedido) <= 30)%Z.
Proof.
  rewrite evaluate_run.
  destruct (find_by_order_id (self_df w) input) as [pedido|];
    [|intros [= <- _]; discriminate].
  intros [= <- _]. unfold verdict_on. cbv zeta.
  destruct (String.eqb_spec (Pedido.estado pedido) "devuelto");
    [discriminate|].
  destruct (String.eqb_spec (Pedido.estado pedido) "sin enviar");
    [discriminate|].
  destruct (String.eqb_spec (Pedido.estado pedido) "enviado");
    [discriminate|].
  destruct (PyStr.contains Tools.categorias_no_devolucion
              (Pedido.category pedido)) eqn:Hcat; [discriminate|].
  destruct (30 <? clock w - ts_date (Pedido.order_date pedido))%Z eqn:Hdays;
    [discriminate|].
  intros _. exists pedido. repeat split; try assumption.
  - now apply contains_false_iff.
  - now apply Z.ltb_ge.
Qed.

Lemma go_ahead_only_within_rules_witness :
  exists pedido,
    find_by_order_id (self_df Sample.world) "O0041" = Some pedido
    /\ Pedido.estado pedido <> "devuelto"
    /\ Pedido.estado pedido <> "sin enviar"
    /\ Pedido.estado pedido <> "enviado"
    /\ ~ In (Pedido.category pedido)
           ["higiene"; "software"; "tarjetas de regalo"]
    /\ (clock Sample.world - ts_date (Pedido.order_date pedido) <= 30)%Z.
Proof.
  apply (go_ahead_only_within_rules Sample.world
           (after_clock_reads 1 Sample.world) "O0041"
           (Eligible "O0041" "bolsa de tela" 30 "Tarjeta" 45000));
    reflexivity.
Defined.

(** ** Starting a return *)

Lemma found_order_id (df : DataFrame) (input : string) (pedido : OrderRecord) :
  find_by_order_id df input = Some pedido ->
  Pedido.order_id pedido = normalize_id input.
Proof.
  intros Hfind. destruct (find_by_order_id_select _ _ _ Hfind) as [rest Hsel].
  apply String.eqb_eq.
  apply (select_matches Pedido.order_id (normalize_id input) df).
  rewrite Hsel. now left.
Qed.

(** An order that is recibido, of a returnable category and at most 30 days
    old is accepted: when the SMTP server delivers, the answer is Sent, and
    exactly one message has been handed to the server.  The message goes to
    the address as it was typed, names the order by its stored identifier,
    and carries the stored product, quantity and order date, the total
    [price * quantity] and the reason as it was typed. *)
Theorem accepted_request_is_sent (w : World)
    (input customer_email reason : string) (pedido : OrderRecord) :
  find_by_order_id (self_df w) input = Some pedido ->
  Pedido.estado pedido = "recibido" ->
  ~ In (Pedido.category pedido) ["higiene"; "software"; "tarjetas de regalo"] ->
  (clock w - ts_date (Pedido.order_date pedido) <= 30)%Z ->
  let msg :=
    {| msg_to := customer_email;
       msg_order_id := Pedido.order_id pedido;
       msg_product := Pedido.product pedido;
       msg_quantity := Pedido.quantity pedido;
       msg_total := (Pedido.price pedido * Pedido.quantity pedido)%Z;
       msg_order_date := ts_date (Pedido.order_date pedido);
       msg_reason := reason |} in
  smtp_server w msg = None ->
  Tools.initiate_return_request input customer_email reason w
  = (Returned (Sent customer_email (Pedido.order_id pedido)
                 (Pedido.product pedido)
                 (Pedido.price pedido * Pedido.quantity pedido)),
     after_send msg (after_clock_reads 1 w)).
Proof.
  intros Hfind Hestado Hcat Hdays msg Hsmtp.
  change ["higiene"; "software"; "tarjetas de regalo"]
    with Tools.categorias_no_devolucion in Hcat.
  rewrite initiate_run, Hfind. cbv zeta. use_status_hyps. cbn [negb].
  unfold return_email. rewrite <- (found_order_id _ _ _ Hfind).
  fold msg. now rewrite Hsmtp.
Qed.

Lemma accepted_request_is_sent_witness :
  Tools.initiate_return_request " o0041 " "Ana@Correo.co" "Talla" Sample.world
  = (Returned (Sent "Ana@Correo.co" "O0041" "bolsa de tela" 45000),
     after_send
       (mkEmail "Ana@Correo.co" "O0041" "bolsa de tela" 3 45000
          (Sample.ordinal 2025 5 16) "Talla")
       (after_clock_reads 1 Sample.world)).
Proof.
  apply (accepted_request_is_sent Sample.world " o0041 " "Ana@Correo.co"
           "Talla" (Sample.row 6));
    solve [reflexivity | vm_compute; discriminate
          | simpl; intuition discriminate].
Defined.

(** For an order that is recibido, [initiate_return_request] refuses a
    non-returnable category before it looks at the date, and refuses an
    order older than 30 days with the number of days; in both cases nothing
    is handed to the SMTP server. *)
Theorem initiate_rejects_category_then_window (w : World)
    (input customer_email reason : string) (pedido : OrderRecord) :
  find_by_order_id (self_df w) input = Some pedido ->
  Pedido.estado pedido = "recibido" ->
  (In (Pedido.category pedido) ["higiene"; "software"; "tarjetas de regalo"] ->
   Tools.initiate_return_request input customer_email reason w
   = (Returned (Rejected (NonReturnableCategory (Pedido.category pedido))),
      w))
  /\ (~ In (Pedido.category pedido)
          ["higiene"; "software"; "tarjetas de regalo"] ->
      (clock w - ts_date (Pedido.order_date pedido) > 30)%Z ->
      Tools.initiate_return_request input customer_email reason w
      = (Returned (Rejected (OutsideWindow
                               (clock w - ts_date (Pedido.order_date pedido)))),
         after_clock_reads 1 w)).
Proof.
  intros Hfind Hestado.
  change ["higiene"; "software"; "tarjetas de regalo"]
    with Tools.categorias_no_devolucion.
  split; [intros Hcat | intros Hcat Hdays];
    rewrite initiate_run, Hfind; cbv zeta; use_status_hyps; reflexivity.
Qed.

Lemma initiate_rejects_category_then_window_witness :
  Tools.initiate_return_request "O0030" "ana@correo.co" "talla" Sample.world
  = (Returned (Rejected (NonReturnableCategory "higiene")), Sample.world)
  /\ Tools.initiate_return_request "O0040" "ana@correo.co" "talla"
       Sample.world
     = (Returned (Rejected (OutsideWindow 45)),
        after_clock_reads 1 Sample.world).
Proof.
  split.
  - apply (initiate_rejects_category_then_window Sample.world "O0030"
             "ana@correo.co" "talla" (Sample.row 4));
      solve [reflexivity | simpl; tauto].
  - apply (initiate_rejects_category_then_window Sample.world "O0040"
             "ana@correo.co" "talla" (Sample.row 5));
      solve [reflexivity | simpl; intuition discriminate].
Defined.

Lemma cons_neq_self {A} (x : A) (l : list A) : x :: l <> l.
Proof.
  intros H. apply (f_equal (@length A)) in H. simpl in H. lia.
Qed.

(** [initiate_return_request] hands a message to the SMTP server only for a
    stored order that is recibido, of a returnable category and at most 30
    days old, and then it hands over exactly one, whatever the server does
    with it.  On every other input, nothing is sent. *)
Theorem message_only_after_checks (w w' : World)
    (input customer_email reason : string) (o : outcome ReturnOutcome) :
  Tools.initiate_return_request input customer_email reason w = (o, w') ->
  outbox w' <> outbox w ->
  exists pedido,
    find_by_order_id (self_df w) input = Some pedido
    /\ Pedido.estado pedido = "recibido"
    /\ ~ In (Pedido.category pedido)
           ["higiene"; "software"; "tarjetas de regalo"]
    /\ (clock w - ts_date (Pedido.order_date pedido) <= 30)%Z
    /\ outbox w'
       = return_email (Pedido.order_id pedido) customer_email reason pedido
         :: outbox w.
Proof.
  rewrite initiate_run.
  destruct (find_by_order_id (self_df w) input) as [pedido|] eqn:Hfind;
    [|intros [= _ <-]; congruence].
  cbv zeta.
  destruct (String.eqb_spec (Pedido.estado pedido) "recibido") as [He|He];
    cbn [negb]; [|intros [= _ <-]; congruence].
  destruct (PyStr.contains Tools.categorias_no_devolucion
              (Pedido.category pedido)) eqn:Hcat;
    [intros [= _ <-]; congruence|].
  destruct (30 <? clock w - ts_date (Pedido.order_date pedido))%Z eqn:Hdays;
    [intros [= _ <-]; cbn [outbox after_clock_reads]; congruence|].
  intros [= _ <-] _. exists pedido. repeat split; try assumption.
  - now apply contains_false_iff.
  - now apply Z.ltb_ge.
  - now rewrite (found_order_id _ _ _ Hfind).
Qed.

Lemma message_only_after_checks_witness :
  exists pedido,
    find_by_order_id (self_df Sample.world) "o0041" = Some pedido
    /\ Pedido.estado pedido = "recibido"
    /\ ~ In (Pedido.category pedido)
           ["higiene"; "software"; "tarjetas de regalo"]
    /\ (clock Sample.world - ts_date (Pedido.order_date pedido) <= 30)%Z
    /\ outbox (after_send
                 (return_email "O0041" "ana@correo.co" "talla" (Sample.row 6))
                 (after_clock_reads 1 Sample.world))
       = return_email (Pedido.order_id pedido) "ana@correo.co" "talla" pedido
         :: outbox Sample.world.
Proof.
  apply (message_only_after_checks Sample.world
           (after_send
              (return_email "O0041" "ana@correo.co" "talla" (Sample.row 6))
              (after_clock_reads 1 Sample.world))
           "o0041" "ana@correo.co" "talla"
           (Returned (Sent "ana@correo.co" "O0041" "bolsa de tela" 45000)));
    [reflexivity | discriminate].
Defined.

(** The two tools agree up to the status: [initiate_return_request] hands a
    message to the SMTP server exactly when the order is recibido and
    [evaluate_return_eligibility], asked on the same day, answers Eligible or
    one of the two manual reviews.  So an order that the verdict sends to
    manual review (personalised, or paid in cash) is accepted like any other,
    and an order whose status is not recibido is refused even when its
    verdict is Eligible. *)
Theorem initiate_sends_iff_verdict_lets_proceed (w : World)
    (input customer_email reason : string) :
  exists v w1,
    Tools.evaluate_return_eligibility input w = (Returned v, w1)
    /\ ((exists msg,
          outbox (snd (Tools.initiate_return_request input customer_email
                         reason w))
          = msg :: outbox w)
        <-> may_proceed v = true
            /\ exists pedido,
                 find_by_order_id (self_df w) input = Some pedido
                 /\ Pedido.estado pedido = "recibido").
Proof.
  rewrite evaluate_run, initiate_run.
  destruct (find_by_order_id (self_df w) input) as [pedido|] eqn:Hfind.
  2:{ do 2 eexists. split; [reflexivity|]. split.
      - intros [msg Hmsg]. cbn in Hmsg. symmetry in Hmsg.
        now apply cons_neq_self in Hmsg.
      - intros [Hv _]. discriminate. }
  do 2 eexists. split; [reflexivity|].
  unfold verdict_on. cbv zeta.
  destruct (String.eqb_spec (Pedido.estado pedido) "recibido") as [He|He];
    cbn [negb].
  2:{ split.
      - intros [msg Hmsg]. cbn in Hmsg. symmetry in Hmsg.
        now apply cons_neq_self in Hmsg.
      - intros [_ [p [[= <-] Hp]]]. contradiction. }
  rewrite He. cbn [String.eqb Ascii.eqb Bool.eqb].
  destruct (PyStr.contains Tools.categorias_no_devolucion
              (Pedido.category pedido)) eqn:Hcat.
  { split.
    - intros [msg Hmsg]. cbn in Hmsg. symmetry in Hmsg.
      now apply cons_neq_self in Hmsg.
    - intros [Hv _]. discriminate. }
  destruct (30 <? clock w - ts_date (Pedido.order_date pedido))%Z eqn:Hdays.
  { split.
    - intros [msg Hmsg]. cbn in Hmsg. symmetry in Hmsg.
      now apply cons_neq_self in Hmsg.
    - intros [Hv _]. discriminate. }
  split.
  - intros _. split; [|now exists pedido].
    destruct (Pedido.category pedido =? "personalizado"); [reflexivity|].
    destruct (PyStr.lower (Pedido.payment_method pedido) =? "efectivo");
      reflexivity.
  - intros _. eexists. reflexivity.
Qed.

(** ** Normal forms of identifiers and of stored text *)

Lemma lstrip_head s c t : PyStr.lstrip s = String c t -> PyStr.isspace c = false.
Proof.
  induction s as [|c' s IH]; simpl; [discriminate|].
  destruct (PyStr.isspace c') eqn:Hc'; [exact IH|].
  now intros [= <- _].
Qed.

Lemma lstrip_idem s : PyStr.lstrip (PyStr.lstrip s) = PyStr.lstrip s.
Proof.
  destruct (PyStr.lstrip s) as [|c t] eqn:Hs; [reflexivity|].
  simpl. now rewrite (lstrip_head s c t Hs).
Qed.

Lemma rstrip_idem s : PyStr.rstrip (PyStr.rstrip s) = PyStr.rstrip s.
Proof.
  induction s as [|c s IH]; [reflexivity|].
  simpl. destruct (PyStr.rstrip s) as [|c' t] eqn:Hs.
  - destruct (PyStr.isspace c) eqn:Hc; [reflexivity|].
    simpl. now rewrite Hc.
  - change (PyStr.rstrip (String c (String c' t)))
      with (match PyStr.rstrip (String c' t) with
            | EmptyString =>
                if PyStr.isspace c then EmptyString else String c EmptyString
            | u => String c u
            end).
    now rewrite IH.
Qed.

Lemma rstrip_keeps_head c s :
  PyStr.isspace c = false ->
  exists t, PyStr.rstrip (String c s) = String c t.
Proof.
  intros Hc. simpl. destruct (PyStr.rstrip s) as [|c' t].
  - rewrite Hc. now exists "".
  - now exists (String c' t).
Qed.

Lemma strip_idem s : PyStr.strip (PyStr.strip s) = PyStr.strip s.
Proof.
  unfold PyStr.strip.
  destruct (PyStr.lstrip s) as [|c t] eqn:Hs; [reflexivity|].
  pose proof (lstrip_head s c t Hs) as Hc.
  destruct (rstrip_keeps_head c t Hc) as [u Hu].
  rewrite Hu. cbn [PyStr.lstrip]. rewrite Hc, <- Hu. apply rstrip_idem.
Qed.

Section CaseMaps.

(** A change of case, one character at a time, that leaves white space
    alone. *)
Variable f : ascii -> ascii.
Variable F : string -> string.
Hypothesis F_cons : forall c s, F (String c s) = String (f c) (F s).
Hypothesis F_nil : F "" = "".
Hypothesis f_space : forall c, PyStr.isspace (f c) = PyStr.isspace c.
Hypothesis f_idem : forall c, f (f c) = f c.

Lemma case_map_idem s : F (F s) = F s.
Proof.
  induction s as [|c s IH]; [now rewrite !F_nil|].
  now rewrite !F_cons, f_idem, IH.
Qed.

Lemma case_map_lstrip s : F (PyStr.lstrip s) = PyStr.lstrip (F s).
Proof.
  induction s as [|c s IH]; [now rewrite F_nil|].
  rewrite F_cons. cbn [PyStr.lstrip]. rewrite f_space.
  destruct (PyStr.isspace c); [exact IH | apply F_cons].
Qed.

Lemma case_map_rstrip s : F (PyStr.rstrip s) = PyStr.rstrip (F s).
Proof.
  induction s as [|c s IH]; [now rewrite F_nil|].
  rewrite F_cons. cbn [PyStr.rstrip]. rewrite <- IH, f_space.
  destruct (PyStr.rstrip s) as [|c' t].
  - rewrite F_nil. destruct (PyStr.isspace c);
      [apply F_nil | now rewrite F_cons, F_nil].
  - now rewrite !F_cons.
Qed.

Lemma case_map_strip s : F (PyStr.strip s) = PyStr.strip (F s).
Proof.
  unfold PyStr.strip. now rewrite case_map_rstrip, case_map_lstrip.
Qed.

Lemma strip_case_map_idem s :
  PyStr.strip (F (PyStr.strip (F s))) = PyStr.strip (F s).
Proof. now rewrite case_map_strip, case_map_idem, strip_idem. Qed.



End CaseMaps.

Lemma isspace_upper_char c :
  PyStr.isspace (PyStr.upper_char c) = PyStr.isspace c.
Proof. destruct c as [[] [] [] [] [] [] [] []]; reflexivity. Qed.


Lemma upper_char_idem c :
  PyStr.upper_char (PyStr.upper_char c) = PyStr.upper_char c.
Proof. destruct c as [[] [] [] [] [] [] [] []]; reflexivity. Qed.


Lemma normalize_id_idem s : normalize_id (normalize_id s) = normalize_id s.
Proof.
  unfold normalize_id.
  apply (strip_case_map_idem PyStr.upper_char PyStr.upper);
    auto using isspace_upper_char, upper_char_idem.
Qed.



(** The identifier that the tools name in their answers is in normal form:
    putting it in upper case and trimming it again changes nothing, so it
    can be given back to any tool, which then answers as on the original
    input. *)
Theorem named_identifier_can_be_reused (w : World)
    (input customer_email reason : string) :
  let named := PyStr.strip (PyStr.upper input) in
  PyStr.strip (PyStr.upper named) = named
  /\ Tools.evaluate_return_eligibility named w
     = Tools.evaluate_return_eligibility input w
  /\ Tools.search_customer_orders named w
     = Tools.search_customer_orders input w
  /\ Tools.initiate_return_request named customer_email reason w
     = Tools.initiate_return_request input customer_email reason w.
Proof.
  intros named. pose proof (normalize_id_idem input) as Hidem.
  fold (normalize_id input) in named. fold (normalize_id named).
  repeat split; [exact Hidem | | |]; open_tool; unfold named;
    now rewrite Hidem.
Qed.

(** ** Loading the table *)




(** ** The report and the verdict *)

Lemma search_run (w : World) (input : string) :
  Tools.search_customer_orders input w
  = match find_by_customer_id (self_df w) input with
    | [] => (Returned (NoOrders (normalize_id input)), w)
    | _ :: _ =>
        (Returned (CustomerOrders (normalize_id input)
                     (map (summary_on (clock w))
                        (find_by_customer_id (self_df w) input))),
         after_clock_reads
           (length (find_by_customer_id (self_df w) input)) w)
    end.
Proof.
  open_tool. fold (find_by_customer_id (self_df w) input).
  destruct (find_by_customer_id (self_df w) input) as [|pedido rest];
    [reflexivity|].
  now rewrite for_each_summary.
Qed.

(** The two read-only tools agree.  An order that
    [evaluate_return_eligibility] finds, and whose customer identifier is
    stored in normal form, is listed in the report of that customer, and
    every line of the report is a stored order of that customer.  When the
    verdict is Eligible, the report shows the same product, days since the
    purchase and total as the verdict. *)
Theorem found_order_is_in_the_report (w : World) (input : string)
    (pedido : OrderRecord) :
  find_by_order_id (self_df w) input = Some pedido ->
  PyStr.strip (PyStr.upper (Pedido.customer_id pedido))
  = Pedido.customer_id pedido ->
  exists summaries,
    fst (Tools.search_customer_orders (Pedido.customer_id pedido) w)
    = Returned (CustomerOrders (Pedido.customer_id pedido) summaries)
    /\ In (summary_on (clock w) pedido) summaries
    /\ (forall s, In s summaries ->
        exists r, In r (self_df w)
                  /\ Pedido.customer_id r = Pedido.customer_id pedido
                  /\ s = summary_on (clock w) r)
    /\ (forall oid prod days pay total,
        fst (Tools.evaluate_return_eligibility input w)
        = Returned (Eligible oid prod days pay total) ->
        exists s, In s summaries
                  /\ sum_order_id s = oid /\ sum_product s = prod
                  /\ sum_days_ago s = days /\ sum_total s = total).
Proof.
  intros Hfind Hnormal.
  destruct (find_by_order_id_select _ _ _ Hfind) as [rest Hsel].
  assert (Hin : In pedido (self_df w)).
  { assert (H : In pedido (select Pedido.order_id (normalize_id input)
                             (self_df w))) by (rewrite Hsel; now left).
    apply filter_In in H. apply H. }
  assert (Hlisted : In pedido (find_by_customer_id (self_df w)
                                 (Pedido.customer_id pedido))).
  { unfold find_by_customer_id, select, normalize_id. rewrite Hnormal.
    apply filter_In. split; [exact Hin | apply String.eqb_refl]. }
  pose proof (search_run w (Pedido.customer_id pedido)) as Hrun.
  unfold normalize_id in Hrun at 1 2.
  rewrite Hnormal in Hrun.
  destruct (find_by_customer_id (self_df w) (Pedido.customer_id pedido))
    as [|p ps] eqn:Hps; [destruct Hlisted|].
  exists (map (summary_on (clock w)) (p :: ps)).
  rewrite Hrun. split; [reflexivity|]. split; [|split].
  - now apply in_map.
  - intros s Hs. apply in_map_iff in Hs. destruct Hs as [r [<- Hr]].
    exists r. rewrite <- Hps in Hr. unfold find_by_customer_id, select in Hr.
    apply filter_In in Hr. destruct Hr as [Hr Heq].
    apply String.eqb_eq in Heq. unfold normalize_id in Heq.
    rewrite Hnormal in Heq. now repeat split.
  - intros oid prod days pay total. rewrite evaluate_run, Hfind. cbn [fst].
    unfold verdict_on. cbv zeta.
    repeat match goal with
      | |- context [if ?b then _ else _] => destruct b
      end; intros [= <- <- <- <- <-].
    exists (summary_on (clock w) pedido). split; [now apply in_map|].
    repeat split. cbn. apply (found_order_id _ _ _ Hfind).
Qed.

Lemma found_order_is_in_the_report_witness :
  exists summaries,
    fst (Tools.search_customer_orders "C002" Sample.world)
    = Returned (CustomerOrders "C002" summaries)
    /\ In (summary_on Sample.today (Sample.row 6)) summaries.
Proof.
  destruct (found_order_is_in_the_report Sample.world "o0041" (Sample.row 6)
              eq_refl eq_refl) as [summaries [Hrun [Hin _]]].
  exists summaries. split; [exact Hrun | exact Hin].
Defined.

(** * The readers and the chat of [main.py] *)

(** ** Loading documents *)

Lemma load_each_value document rows docs :
  Main.load_each document rows = Main.Value docs
  <-> Forall2 (fun row doc => document row = Main.Value doc) rows docs.
Proof.
  revert docs. induction rows as [|row rest IH]; intros docs; simpl.
  - split; [intros [= <-]; constructor | intros H; now inversion H].
  - destruct (document row) as [doc| |] eqn:Hdoc; simpl.
    + destruct (Main.load_each document rest) as [ds| |]; simpl.
      * split.
        -- intros [= <-]. constructor; [exact Hdoc | now apply IH].
        -- intros H. inversion H as [|? d ? ds' Hd Hds]; subst.
           apply IH in Hds. congruence.
      * split; [discriminate|]. intros H.
        inversion H as [|? d ? ds' Hd Hds]; subst.
        apply IH in Hds. discriminate.
      * split; [discriminate|]. intros H.
        inversion H as [|? d ? ds' Hd Hds]; subst.
        apply IH in Hds. discriminate.
    + split; [discriminate|]. intros H. inversion H; congruence.
    + split; [discriminate|]. intros H. inversion H; congruence.
Qed.

Lemma load_each_raises document rows e :
  Main.load_each document rows = Main.Raises e ->
  exists row, In row rows /\ document row = Main.Raises e.
Proof.
  induction rows as [|row rest IH]; simpl; [discriminate|].
  destruct (document row) as [doc| |] eqn:Hdoc; simpl.
  - destruct (Main.load_each document rest) as [ds| |]; simpl;
      try discriminate.
    intros [= <-]. destruct (IH eq_refl) as [row' [Hin Hrow']].
    exists row'. split; [now right | exact Hrow'].
  - intros [= <-]. exists row. split; [now left | exact Hdoc].
  - discriminate.
Qed.

Lemma load_each_interrupts document rows :
  Main.load_each document rows = Main.Interrupts ->
  exists row, In row rows /\ document row = Main.Interrupts.
Proof.
  induction rows as [|row rest IH]; simpl; [discriminate|].
  destruct (document row) as [doc| |] eqn:Hdoc; simpl.
  - destruct (Main.load_each document rest) as [ds| |]; simpl;
      try discriminate.
    intros _. destruct (IH eq_refl) as [row' [Hin Hrow']].
    exists row'. split; [now right | exact Hrow'].
  - discriminate.
  - intros _. exists row. split; [now left | exact Hdoc].
Qed.

Ltac read_columns row :=
  unfold Main.csv_document, Main.json_document, Main.getitem;
  repeat match goal with
    | |- context [match Main.get row ?k with _ => _ end] =>
        destruct (Main.get row k) eqn:?; cbn [Main.and_then]
    end.

Lemma csv_document_cases (row : Main.Dict) :
  (exists doc,
     Main.csv_document row = Main.Value doc
     /\ Main.keys (Main.metadata doc) = Main.columns
     /\ (forall k, In k Main.columns ->
                   Main.get (Main.metadata doc) k = Main.get row k
                   /\ Main.get row k <> None))
  \/ (exists k,
        Main.csv_document row = Main.Raises ("'" ++ k ++ "'")
        /\ In k Main.columns /\ Main.get row k = None).
Proof.
  read_columns row;
    try (right; eexists; split; [reflexivity|]; split;
         [simpl; tauto | assumption]).
  left. eexists. split; [reflexivity|]. split; [reflexivity|].
  intros k Hk. simpl in Hk.
  repeat (destruct Hk as [<- | Hk]; [split; [cbn; congruence | congruence]|]).
  destruct Hk.
Qed.

(** [CSVReader.load_data] gives documents exactly when every row has the
    nine columns, and then one document for each row, in the order of the
    file.  The metadata of a document has the nine columns as its keys, in
    a fixed order, each with the value of the row; other columns of the
    file are dropped.  Otherwise the whole load fails with the [KeyError]
    of a column that some row lacks; no document is produced. *)
Theorem csv_load_keeps_the_nine_columns (rows : list Main.Dict) :
  ((exists docs, Main.CSVReader_load_data rows = Main.Value docs)
   <-> (forall row k, In row rows -> In k Main.columns ->
                      Main.get row k <> None))
  /\ (forall docs,
      Main.CSVReader_load_data rows = Main.Value docs ->
      Forall2
        (fun row doc =>
           Main.keys (Main.metadata doc) = Main.columns
           /\ forall k, In k Main.columns ->
                        Main.get (Main.metadata doc) k = Main.get row k)
        rows docs)
  /\ (forall e,
      Main.CSVReader_load_data rows = Main.Raises e ->
      exists row k,
        In row rows /\ In k Main.columns /\ Main.get row k = None
        /\ e = "'" ++ k ++ "'")
  /\ Main.CSVReader_load_data rows <> Main.Interrupts.
Proof.
  unfold Main.CSVReader_load_data. split; [|split; [|split]].
  - split.
    + intros [docs Hdocs] row k Hrow Hk.
      apply load_each_value in Hdocs.
      induction Hdocs as [|r d rs ds Hd _ IH]; [destruct Hrow|].
      destruct Hrow as [<- | Hrow]; [|now apply IH].
      destruct (csv_document_cases r) as [[doc [_ [_ Hall]]] | [k' [Hk' _]]];
        [now apply Hall | congruence].
    + intros Hall. induction rows as [|row rest IH].
      * now exists [].
      * destruct IH as [docs Hdocs].
        { intros r k Hr. apply Hall. now right. }
        destruct (csv_document_cases row)
          as [[doc [Hdoc _]] | [k [_ [Hk Hnone]]]].
        -- exists (doc :: docs). simpl. now rewrite Hdoc, Hdocs.
        -- exfalso. apply (Hall row k); auto. now left.
  - intros docs Hdocs. apply load_each_value in Hdocs.
    induction Hdocs as [|r d rs ds Hd _ IH]; constructor; [|exact IH].
    destruct (csv_document_cases r) as [[doc [Hdoc [Hkeys Hall]]] | [k [Hk _]]];
      [|congruence].
    assert (doc = d) by congruence. subst doc.
    split; [exact Hkeys|]. intros k Hk. now apply Hall.
  - intros e He. apply load_each_raises in He.
    destruct He as [row [Hrow He]]. exists row.
    destruct (csv_document_cases row) as [[doc [Hdoc _]] | [k [Hk [Hin Hnone]]]];
      [congruence|].
    exists k. repeat split; try assumption. congruence.
  - intros H. apply load_each_interrupts in H.
    destruct H as [row [_ Hrow]].
    destruct (csv_document_cases row) as [[doc [Hdoc _]] | [k [Hk _]]];
      congruence.
Qed.

Lemma json_document_cases (item : Main.Dict) :
  (exists question answer,
     Main.get item "question" = Some question
     /\ Main.get item "answer" = Some answer
     /\ Main.json_document item
        = Main.Value
            (Main.mkDocument
               ("Pregunta: " ++ question ++ " -> Respuesta: " ++ answer) []))
  \/ (exists k,
        Main.json_document item = Main.Raises ("'" ++ k ++ "'")
        /\ In k ["question"; "answer"] /\ Main.get item k = None).
Proof.
  read_columns item;
    try (right; eexists; split; [reflexivity|]; split;
         [simpl; tauto | assumption]).
  left. do 2 eexists. repeat split.
Qed.

(** [JSONReader.load_data] gives documents exactly when every item has a
    question and an answer, and then one document for each item, in order,
    whose text is the question and the answer of the item and whose
    metadata is empty.  Otherwise the whole load fails with the [KeyError]
    of the key that some item lacks. *)
Theorem json_load_needs_question_and_answer (data : list Main.Dict) :
  ((exists docs, Main.JSONReader_load_data data = Main.Value docs)
   <-> (forall item, In item data ->
                     Main.get item "question" <> None
                     /\ Main.get item "answer" <> None))
  /\ (forall docs,
      Main.JSONReader_load_data data = Main.Value docs ->
      Forall2
        (fun item doc =>
           exists question answer,
             Main.get item "question" = Some question
             /\ Main.get item "answer" = Some answer
             /\ Main.text doc
                = "Pregunta: " ++ question ++ " -> Respuesta: " ++ answer
             /\ Main.metadata doc = [])
        data docs)
  /\ (forall e,
      Main.JSONReader_load_data data = Main.Raises e ->
      exists item k,
        In item data /\ In k ["question"; "answer"]
        /\ Main.get item k = None /\ e = "'" ++ k ++ "'").
Proof.
  unfold Main.JSONReader_load_data. split; [|split].
  - split.
    + intros [docs Hdocs] item Hitem.
      apply load_each_value in Hdocs.
      induction Hdocs as [|r d rs ds Hd _ IH]; [destruct Hitem|].
      destruct Hitem as [<- | Hitem]; [|now apply IH].
      destruct (json_document_cases r)
        as [[q [a [Hq [Ha _]]]] | [k [Hk _]]]; [|congruence].
      rewrite Hq, Ha. split; discriminate.
    + intros Hall. induction data as [|item rest IH].
      * now exists [].
      * destruct IH as [docs Hdocs].
        { intros r Hr. apply Hall. now right. }
        destruct (json_document_cases item)
          as [[q [a [_ [_ Hdoc]]]] | [k [_ [Hk Hnone]]]].
        -- eexists. simpl. rewrite Hdoc, Hdocs. reflexivity.
        -- exfalso. destruct (Hall item (or_introl eq_refl)) as [Hq Ha].
           simpl in Hk. destruct Hk as [<- | [<- | []]]; contradiction.
  - intros docs Hdocs. apply load_each_value in Hdocs.
    induction Hdocs as [|r d rs ds Hd _ IH]; constructor; [|exact IH].
    destruct (json_document_cases r)
      as [[q [a [Hq [Ha Hdoc]]]] | [k [Hk _]]]; [|congruence].
    exists q, a. rewrite Hd in Hdoc. injection Hdoc as ->.
    now repeat split.
  - intros e He. apply load_each_raises in He.
    destruct He as [item [Hitem He]]. exists item.
    destruct (json_document_cases item)
      as [[q [a [_ [_ Hdoc]]]] | [k [Hk [Hin Hnone]]]]; [congruence|].
    exists k. repeat split; try assumption. congruence.
Qed.

(** ** One turn of the chat *)

Lemma letter_o_after_upper c :
  Ascii.eqb "O" (PyStr.upper_char c)
  = (Ascii.eqb c "o" || Ascii.eqb c "O")%bool.
Proof. destruct c as [[] [] [] [] [] [] [] []]; reflexivity. Qed.

Lemma any_letter_o_after_upper s :
  Main.any (Ascii.eqb "O") (PyStr.upper s)
  = Main.any (fun c => Ascii.eqb c "o" || Ascii.eqb c "O")%bool s.
Proof.
  induction s as [|c s IH]; [reflexivity|].
  cbn [Main.any PyStr.upper]. now rewrite letter_o_after_upper, IH.
Qed.



(** What the reply says when things go wrong.  An [Exception] of the
    returns agent is reported with its text after "Error en el agente de
    devoluciones"; an [Exception] of the FAQ index with its text after
    "Error"; an agent name other than devoluciones, pedidos and faq gets a
    fixed reply without anybody being called. *)
Theorem failures_become_replies (env : Main.Collaborators)
    (agent_choice user_input str_e : string)
    (chat_history : list (string * string)) (log : list Main.Call) :
  user_input <> "" ->
  (agent_choice = "devoluciones" ->
   Main.devoluciones_agent_chat env user_input = Main.Raises str_e ->
   Main.chat_with_agent env agent_choice user_input chat_history log
   = (Main.Value
        (chat_history
           ++ [(user_input,
                ("❌ Error en el agente de devoluciones: "
                   ++ str_e)%string)])%list,
      Main.AgentChat user_input :: log))
  /\ (agent_choice = "faq" ->
      Main.faq_query env user_input = Main.Raises str_e ->
      Main.chat_with_agent env agent_choice user_input chat_history log
      = (Main.Value
           (chat_history
              ++ [(user_input, ("❌ Error: " ++ str_e)%string)])%list,
         Main.FaqQuery user_input :: log))
  /\ (agent_choice <> "devoluciones" ->
      agent_choice <> "pedidos" ->
      agent_choice <> "faq" ->
      Main.chat_with_agent env agent_choice user_input chat_history log
      = (Main.Value
           (chat_history
              ++ [(user_input, "❌ Selecciona un agente válido.")])%list,
         log)).
Proof.
  intros Hinput. apply String.eqb_neq in Hinput.
  unfold Main.chat_with_agent. rewrite Hinput.
  split; [|split].
  - intros -> Hagent.
    unfold Main.then_, Main.try_except_Exception, Main.call, Main.pure.
    cbn. now rewrite Hagent.
  - intros -> Hfaq.
    unfold Main.then_, Main.try_except_Exception, Main.call, Main.pure.
    cbn. now rewrite Hfaq.
  - intros Hd Hp Hf.
    apply String.eqb_neq in Hd, Hp, Hf. rewrite Hd, Hp, Hf. reflexivity.
Qed.

Lemma failures_become_replies_witness :
  Main.chat_with_agent
    (Main.mkCollaborators (fun _ => Main.Raises "sin conexion")
       (fun _ => Main.Value []) (fun _ => Main.Value "")
       (fun _ => Main.Value ""))
    "devoluciones" "quiero devolver O0001" [("hola", "hola")] []
  = (Main.Value
       [("hola", "hola");
        ("quiero devolver O0001",
         "❌ Error en el agente de devoluciones: sin conexion")],
     [Main.AgentChat "quiero devolver O0001"])
  /\ Main.chat_with_agent
       (Main.mkCollaborators (fun _ => Main.Raises "sin conexion")
          (fun _ => Main.Value []) (fun _ => Main.Value "")
          (fun _ => Main.Value ""))
       "ventas" "hola" [] []
     = (Main.Value [("hola", "❌ Selecciona un agente válido.")], []).
Proof.
  split.
  - apply (failures_become_replies
             (Main.mkCollaborators (fun _ => Main.Raises "sin conexion")
                (fun _ => Main.Value []) (fun _ => Main.Value "")
                (fun _ => Main.Value ""))
             "devoluciones" "quiero devolver O0001" "sin conexion"
             [("hola", "hola")] []);
      solve [reflexivity | discriminate].
  - apply (failures_become_replies
             (Main.mkCollaborators (fun _ => Main.Raises "sin conexion")
                (fun _ => Main.Value []) (fun _ => Main.Value "")
                (fun _ => Main.Value ""))
             "ventas" "hola" "" [] []);
      solve [reflexivity | discriminate].
Defined.


Lemma csv_metadata (row : Main.Dict) (doc : Main.Document) :
  Main.csv_document row = Main.Value doc ->
  Main.metadata doc
  = map (fun k => (k, match Main.get row k with
                      | Some v => v
                      | None => ""
                      end))
      Main.columns.
Proof.
  revert doc. read_columns row; intros doc H; try discriminate.
  injection H as <-. cbn [Main.metadata Main.columns map].
  repeat match goal with
    | Hget : Main.get row _ = _ |- _ => rewrite Hget; clear Hget
    end.
  reflexivity.
Qed.

Lemma any_nonempty p s : Main.any p s = true -> (s =? "") = false.
Proof. destruct s; [discriminate | reflexivity]. Qed.

(** The readers and the chat compose.  When the index answers an order
    lookup with the metadata that [CSVReader.load_data] made from a row of
    the file, the reply lists the nine columns of that row, one on each
    line, in a fixed order and with the values of the file; a column of the
    file outside the nine never shows. *)
Theorem order_reply_lists_the_nine_columns (env : Main.Collaborators)
    (user_input : string) (chat_history : list (string * string))
    (log : list Main.Call) (row : Main.Dict) (doc : Main.Document)
    (others : list Main.Dict) :
  Main.csv_document row = Main.Value doc ->
  Main.any (fun c => Ascii.eqb c "o" || Ascii.eqb c "O")%bool user_input
  = true ->
  Main.any Main.isdigit user_input = true ->
  Main.pedidos_retrieve env user_input
  = Main.Value (Main.metadata doc :: others) ->
  Main.chat_with_agent env "pedidos" user_input chat_history log
  = (Main.Value
       (chat_history
          ++ [(user_input,
               ("📦 Información del pedido:" ++ Main.nl
                ++ String.concat Main.nl
                     (map (fun k =>
                             "• " ++ k ++ ": "
                             ++ match Main.get row k with
                                | Some v => v
                                | None => ""
                                end)
                        Main.columns))%string)])%list,
     Main.Retrieve user_input :: log).
Proof.
  intros Hdoc Ho Hdigit Hretrieve.
  rewrite <- any_letter_o_after_upper in Ho.
  unfold Main.chat_with_agent.
  rewrite (any_nonempty _ _ Hdigit). cbn [String.eqb Ascii.eqb Bool.eqb].
  unfold Main.then_, Main.try_except_Exception, Main.call, Main.pure.
  rewrite Ho, Hdigit, Hretrieve. cbn [andb].
  rewrite (csv_metadata row doc Hdoc), map_map. reflexivity.
Qed.

Lemma order_reply_lists_the_nine_columns_witness :
  Main.chat_with_agent
    (Main.mkCollaborators (fun _ => Main.Value "")
       (fun _ =>
          Main.Value
            [[("order_id", "O0001"); ("customer_id", "C001");
              ("product", "Botella"); ("category", "General");
              ("price", "50000"); ("quantity", "2");
              ("order_date", "2025-06-12");
              ("payment_method", "Efectivo"); ("estado", "Recibido")]])
       (fun _ => Main.Value "") (fun _ => Main.Value ""))
    "pedidos" "donde esta O0001" [] []
  = (Main.Value
       [("donde esta O0001",
         "📦 Información del pedido:" ++ Main.nl
         ++ String.concat Main.nl
              ["• order_id: O0001"; "• customer_id: C001";
               "• product: Botella"; "• category: General";
               "• price: 50000"; "• quantity: 2";
               "• order_date: 2025-06-12"; "• payment_method: Efectivo";
               "• estado: Recibido"])],
     [Main.Retrieve "donde esta O0001"]).
Proof.
  apply (order_reply_lists_the_nine_columns
           (Main.mkCollaborators (fun _ => Main.Value "")
              (fun _ =>
                 Main.Value
                   [[("order_id", "O0001"); ("customer_id", "C001");
                     ("product", "Botella"); ("category", "General");
                     ("price", "50000"); ("quantity", "2");
                     ("order_date", "2025-06-12");
                     ("payment_method", "Efectivo");
                     ("estado", "Recibido")]])
              (fun _ => Main.Value "") (fun _ => Main.Value ""))
           "donde esta O0001" [] []
           [("estado", "Recibido"); ("nota", "fragil");
            ("payment_method", "Efectivo"); ("order_date", "2025-06-12");
            ("quantity", "2"); ("price", "50000"); ("category", "General");
            ("product", "Botella"); ("customer_id", "C001");
            ("order_id", "O0001")]
           (Main.mkDocument
              "El id del pedido es O0001, Cliente ID: C001, Producto: Botella, Categoría: General, Cantidad: 2, Precio: 50000, Fecha: 2025-06-12, Estado: Recibido"
              [("order_id", "O0001"); ("customer_id", "C001");
               ("product", "Botella"); ("category", "General");
               ("price", "50000"); ("quantity", "2");
               ("order_date", "2025-06-12");
               ("payment_method", "Efectivo"); ("estado", "Recibido")])
           []);
    reflexivity.
Defined.
